(** * A shallow embedding of [backend/main.py]

    The development models the sandboxed execution engine
    ([LANGUAGE_COMMANDS], [limit_resources], [execute_code_safely]), the
    leaderboard store ([update_leaderboard]) and the [/analyze] endpoint
    ([analyze_code]), and states the properties of the design document
    against these definitions.

    Conventions.
    - A Python [str] is a list of Unicode code points.
    - Host effects (the [tracemalloc] tracer, the log of spawned
      subprocesses, the leaderboard file) live in an explicit [world];
      an exception leaves the effects performed before it in place.
    - What the host answers during one request (clock readings, the
      result of [subprocess.run], [sys.executable], ...) is an [env]. *)

From Stdlib Require Import ZArith NArith QArith Qround Qabs Lqa Ascii String List Bool Lia.
From Stdlib Require Import Sorting.Sorted Sorting.Permutation.
From stdpp Require Import base option list functions gmap.
Import ListNotations.

#[local] Open Scope Z_scope.
#[local] Open Scope list_scope.

(* ===================================================================== *)
(** * Python strings *)
(* ===================================================================== *)

Module PyStr.

(** A code point. *)
Definition char : Type := N.

(** A Python [str]. *)
Definition pystr : Type := list char.

(** An ASCII literal of the source as a [pystr]. *)
Definition py (s : string) : pystr :=
  List.map N_of_ascii (list_ascii_of_string s).

(** [str.isspace] on one code point: the table behind
    [_PyUnicode_IsWhitespace] of CPython. *)
Definition isspace (c : char) : bool :=
  ((9 <=? c) && (c <=? 13))%N
  || ((28 <=? c) && (c <=? 32))%N
  || (c =? 133)%N || (c =? 160)%N || (c =? 5760)%N
  || ((8192 <=? c) && (c <=? 8202))%N
  || (c =? 8232)%N || (c =? 8233)%N || (c =? 8239)%N
  || (c =? 8287)%N || (c =? 12288)%N.

(** [str.lstrip()] *)
Fixpoint lstrip (s : pystr) : pystr :=
  match s with
  | [] => []
  | c :: s' => if isspace c then lstrip s' else s
  end.

(** [str.rstrip()] *)
Definition rstrip (s : pystr) : pystr := rev (lstrip (rev s)).

(** [str.strip()] *)
Definition strip (s : pystr) : pystr := rstrip (lstrip s).

(** [needle in hay] for strings: [needle] occurs as a contiguous run. *)
Definition occurs_in (needle hay : pystr) : Prop :=
  exists before after, hay = before ++ needle ++ after.

(** The line feed of the f-string ["Runtime Error:\n..."]. *)
Definition LF : pystr := [10%N].

End PyStr.
Import PyStr.

(* ===================================================================== *)
(** * Exceptions and effects *)
(* ===================================================================== *)

(** Computations over a state [S] that either raise an [E] or return an
    [A]. The state reached is kept in both cases: what a Python function
    did before it raised stays done. *)
Definition M (S E A : Type) : Type := S -> (E + A) * S.

Definition ret {S E A} (a : A) : M S E A := fun s => (inr a, s).

Definition raise {S E A} (e : E) : M S E A := fun s => (inl e, s).

Definition bind {S E A B} (c : M S E A) (k : A -> M S E B) : M S E B :=
  fun s =>
    match c s with
    | (inl e, s') => (inl e, s')
    | (inr a, s') => k a s'
    end.

(** [try: c  except ... as e: h e] *)
Definition try_except {S E A} (c : M S E A) (h : E -> M S E A) : M S E A :=
  fun s =>
    match c s with
    | (inl e, s') => h e s'
    | (inr a, s') => (inr a, s')
    end.

(** Run a computation whose exceptions are a part of a larger type. *)
Definition lift_exn {S E E' A} (inj : E -> E') (c : M S E A) : M S E' A :=
  fun s =>
    match c s with
    | (inl e, s') => (inl (inj e), s')
    | (inr a, s') => (inr a, s')
    end.

Declare Scope py_scope.
Delimit Scope py_scope with py.
Notation "x <- c ;; k" := (bind c (fun x => k))
  (at level 100, c at next level, right associativity) : py_scope.
Notation "c ;;; k" := (bind c (fun _ => k))
  (at level 100, right associativity) : py_scope.

(** The exception classes [execute_code_safely] tells apart. Every
    member is a subclass of [Exception]; [OtherException] stands for
    the classes neither [except subprocess.TimeoutExpired] nor
    [except FileNotFoundError] catches. *)
Inductive exn_class : Type :=
  | TimeoutExpired
  | FileNotFoundError
  | OtherException.

(** An exception object: its class and [str(e)]. *)
Record exn : Type := Exn { exn_cls : exn_class; exn_str : pystr }.

(* ===================================================================== *)
(** * POSIX resource limits of a process *)
(* ===================================================================== *)

Module Resource.

Inductive rlimit_id : Type :=
  | RLIMIT_CPU | RLIMIT_FSIZE | RLIMIT_DATA | RLIMIT_STACK
  | RLIMIT_CORE | RLIMIT_NOFILE | RLIMIT_AS.

#[export] Instance rlimit_id_eq_dec : EqDecision rlimit_id.
Proof. solve_decision. Defined.

(** A limit value: a number of units or [resource.RLIM_INFINITY]. *)
Inductive rlim : Type :=
  | RLIM_INFINITY
  | Rlim (n : Z).

(** [a <= b] on limit values. *)
Definition rlim_leb (a b : rlim) : bool :=
  match a, b with
  | _, RLIM_INFINITY => true
  | RLIM_INFINITY, Rlim _ => false
  | Rlim x, Rlim y => x <=? y
  end.

(** The part of a process [setrlimit] reads and writes: per resource
    the pair (soft, hard), and whether the process may raise hard
    limits (CAP_SYS_RESOURCE). *)
Record proc : Type := Proc {
  rlimits : rlimit_id -> rlim * rlim;
  cap_sys_resource : bool
}.

Definition set_rlimits (f : rlimit_id -> rlim * rlim) (p : proc) : proc :=
  {| rlimits := f; cap_sys_resource := cap_sys_resource p |}.

(** [resource.setrlimit(res, (soft, hard))]: the kernel refuses a soft
    limit above the hard one, and an unprivileged raise of the hard
    limit; Python turns both refusals into [ValueError]. *)
Definition setrlimit (res : rlimit_id) (limits : rlim * rlim) : M proc exn unit :=
  fun p =>
    let '(soft, hard) := limits in
    if negb (rlim_leb soft hard) then
      raise (Exn OtherException (py "current limit exceeds maximum limit")) p
    else if negb (rlim_leb hard (snd (rlimits p res)) || cap_sys_resource p) then
      raise (Exn OtherException (py "not allowed to raise maximum limit")) p
    else
      (inr tt, set_rlimits (<[res := limits]> (rlimits p)) p).

End Resource.
Import Resource.

#[local] Open Scope py_scope.

(** [limit_resources()], lines 66-68. It runs in the process it limits. *)
Definition limit_resources : M proc exn unit :=
  setrlimit RLIMIT_CPU (Rlim 2, Rlim 2) ;;;
  setrlimit RLIMIT_AS (Rlim (512 * 1024 * 1024), Rlim (512 * 1024 * 1024)).

(* ===================================================================== *)
(** * Numbers *)
(* ===================================================================== *)

(** Clock readings and durations are rationals: the binary64 error of
    the subtraction and of the final conversion to a float is not
    modelled, the decimal rounding is. *)
Definition round_half_even (x : Q) : Z :=
  let f := Qfloor x in
  match Qcompare (x - inject_Z f) (1 # 2) with
  | Lt => f
  | Gt => f + 1
  | Eq => if Z.even f then f else f + 1
  end.

(** [round(x, ndigits)] for [ndigits >= 0]: to the nearest multiple of
    [10 ** -ndigits], ties to the even one. *)
Definition round_ndigits (x : Q) (ndigits : N) : Q :=
  (inject_Z (round_half_even (x * inject_Z (10 ^ Z.of_N ndigits)))
   / inject_Z (10 ^ Z.of_N ndigits))%Q.

(* ===================================================================== *)
(** * The host: tracer, subprocesses, leaderboard file *)
(* ===================================================================== *)

(** One entry of [leaderboard.json], as [update_leaderboard] builds it. *)
Record entry : Type := Entry {
  e_username : pystr;
  e_code : pystr;
  e_language : pystr;
  e_score : Z;
  e_runtime : Q;
  e_memory : Z;
  e_timestamp : pystr
}.

(** The arguments of one [subprocess.run] call. [capture_output=True]
    and [text=True] are the same at every call site and are built into
    [CompletedProcess]. [preexec_fn] runs in the child between fork and
    exec, on the child's own limits. *)
Record spawn : Type := Spawn {
  argv : list pystr;
  timeout : Z;
  preexec_fn : option (M proc exn unit)
}.

Record CompletedProcess : Type := Completed {
  returncode : Z;
  stdout : pystr;
  stderr : pystr
}.

Record world : Type := World {
  tracing : bool;               (* tracemalloc.is_tracing() *)
  traced_peak : N;              (* peak of the traced allocations, bytes *)
  spawned : list spawn;         (* the subprocess.run calls, oldest first *)
  leaderboard_file : list entry (* contents of LEADERBOARD_FILE *)
}.

(** What the host answers during one request. *)
Record env : Type := Env {
  sys_executable : pystr;
  platform_system : pystr;
  clock_start : Q;
  clock_end : Q;
  host_alloc_peak : N;
  run_child : spawn -> exn + CompletedProcess;
  utcnow_isoformat : pystr
}.

Definition set_tracer (t : bool) (peak : N) (w : world) : world :=
  {| tracing := t; traced_peak := peak;
     spawned := spawned w; leaderboard_file := leaderboard_file w |}.

Definition log_spawn (sp : spawn) (w : world) : world :=
  {| tracing := tracing w; traced_peak := traced_peak w;
     spawned := spawned w ++ [sp]; leaderboard_file := leaderboard_file w |}.

Definition set_leaderboard_file (l : list entry) (w : world) : world :=
  {| tracing := tracing w; traced_peak := traced_peak w;
     spawned := spawned w; leaderboard_file := l |}.

Module tracemalloc.

(** [tracemalloc.start()]: does nothing when the tracer already runs,
    so an earlier peak is kept. *)
Definition start {E} : M world E unit :=
  fun w => (inr tt, if tracing w then w else set_tracer true 0%N w).

(** [tracemalloc.get_traced_memory()[1]] *)
Definition get_traced_peak {E} : M world E N :=
  fun w => (inr (if tracing w then traced_peak w else 0%N), w).

(** [tracemalloc.stop()] *)
Definition stop {E} : M world E unit :=
  fun w => (inr tt, set_tracer false 0%N w).

End tracemalloc.

Module subprocess.

(** [subprocess.run(argv, capture_output=True, text=True, timeout=...,
    preexec_fn=...)]. The call is logged whatever its result; while
    the tracer runs, the allocations of the call raise the peak. *)
Definition run (h : env) (sp : spawn) : M world exn CompletedProcess :=
  fun w =>
    let w1 := log_spawn sp w in
    let w2 := if tracing w1
              then set_tracer true (N.max (traced_peak w1) (host_alloc_peak h)) w1
              else w1 in
    (run_child h sp, w2).

End subprocess.

(* ===================================================================== *)
(** * The execution engine *)
(* ===================================================================== *)

(** [LANGUAGE_COMMANDS], lines 47-52. [sys.executable] is known at start
    up only. The dict literal inserts its items in source order. *)
Definition LANGUAGE_COMMANDS (h : env) : gmap pystr (list pystr) :=
  <[py "cpp" := [py "./a.out"]]>
  (<[py "java" := [py "java"; py "Main"]]>
  (<[py "javascript" := [py "node"; py "-e"]]>
  (<[py "python" := [sys_executable h; py "-c"]]> ∅))).

(** What [execute_code_safely] returns: the dict [{"error": ...}] or the
    dict with the keys ["runtime"], ["memory"] and ["output"]. *)
Inductive outcome : Type :=
  | Error (error : pystr)
  | Measured (runtime : Q) (memory : Z) (output : pystr).

Definition MSG_UNSUPPORTED : pystr := py "Unsupported language".
Definition MSG_TIMEOUT : pystr :=
  py "Code execution timed out (infinite loop or too slow).".
Definition MSG_NOT_FOUND : pystr :=
  py "Execution file not found. Ensure compilation was successful.".
Definition MSG_RUNTIME_ERROR (detail : pystr) : pystr :=
  py "Runtime Error:" ++ LF ++ detail.
Definition MSG_UNEXPECTED (detail : pystr) : pystr :=
  py "Unexpected error: " ++ detail.

(** The if/elif chain of lines 135-158: the arguments of the one
    [subprocess.run] call, or [None] for the final [else]. *)
Definition run_arguments (h : env) (code language : pystr) : option spawn :=
  let is_macos := bool_decide (platform_system h = py "Darwin") in
  let is_windows := bool_decide (platform_system h = py "Windows") in
  if bool_decide (language = py "python") then
    Some {| argv := [py "python3"; py "-c"; code]; timeout := 2;
            preexec_fn := if is_macos || is_windows then None
                          else Some limit_resources |}
  else if bool_decide (language = py "javascript") then
    Some {| argv := [py "node"; py "-e"; code]; timeout := 2;
            preexec_fn := if is_macos || is_windows then None
                          else Some limit_resources |}
  else if bool_decide (language = py "java") then
    Some {| argv := [py "java"; py "Main"]; timeout := 2;
            preexec_fn := None |}
  else if bool_decide (language = py "cpp") then
    Some {| argv := [py "./a.out"]; timeout := 2; preexec_fn := None |}
  else None.

(** The [try] block, lines 128-171. *)
Definition execute_body (h : env) (code language : pystr) : M world exn outcome :=
  tracemalloc.start ;;;
  start_time <- ret (clock_start h) ;;
  match run_arguments h code language with
  | None => ret (Error MSG_UNSUPPORTED)
  | Some args =>
      result <- subprocess.run h args ;;
      end_time <- ret (clock_end h) ;;
      memory_used <- tracemalloc.get_traced_peak ;;
      tracemalloc.stop ;;;
      if negb (returncode result =? 0) then
        ret (Error (MSG_RUNTIME_ERROR (strip (stderr result))))
      else
        ret (Measured (round_ndigits (end_time - start_time) 4)
                      (Z.of_N memory_used / 1024)
                      (strip (stdout result)))
  end.

(** The [except] clauses, lines 173-178, tried in source order. *)
Definition execute_handlers (e : exn) : M world exn outcome :=
  match exn_cls e with
  | TimeoutExpired => ret (Error MSG_TIMEOUT)
  | FileNotFoundError => ret (Error MSG_NOT_FOUND)
  | OtherException => ret (Error (MSG_UNEXPECTED (exn_str e)))
  end.

(** [execute_code_safely(code, language)], lines 123-178. *)
Definition execute_code_safely (h : env) (code language : pystr)
  : M world exn outcome :=
  match LANGUAGE_COMMANDS h !! language with
  | None => ret (Error MSG_UNSUPPORTED)
  | Some _ => try_except (execute_body h code language) execute_handlers
  end.

(* ===================================================================== *)
(** * The leaderboard store *)
(* ===================================================================== *)

(** [sorted(l, key=lambda x: x["score"], reverse=True)]. Python's sort
    is stable, also with [reverse=True]; a stable sort has one possible
    result, which insertion from the right computes. *)
Fixpoint insert_by_score (x : entry) (l : list entry) : list entry :=
  match l with
  | [] => [x]
  | y :: l' =>
      if e_score x <? e_score y then y :: insert_by_score x l' else x :: l
  end.

Fixpoint sorted_by_score_desc (l : list entry) : list entry :=
  match l with
  | [] => []
  | x :: l' => insert_by_score x (sorted_by_score_desc l')
  end.

Definition load_leaderboard {E} : M world E (list entry) :=
  fun w => (inr (leaderboard_file w), w).

Definition save_leaderboard {E} (leaderboard : list entry) : M world E unit :=
  fun w => (inr tt, set_leaderboard_file leaderboard w).

(** [update_leaderboard(username, code, language, score, performance)],
    lines 246-264; [performance] is a [Measured] outcome, given here by
    its ["runtime"] and ["memory"]. *)
Definition update_leaderboard {E} (h : env) (username code language : pystr)
    (score : Z) (runtime : Q) (memory : Z) : M world E unit :=
  leaderboard <- load_leaderboard ;;
  timestamp <- ret (utcnow_isoformat h) ;;
  let new_entry :=
    {| e_username := username; e_code := code; e_language := language;
       e_score := score; e_runtime := runtime; e_memory := memory;
       e_timestamp := timestamp |} in
  let leaderboard := leaderboard ++ [new_entry] in
  let leaderboard := sorted_by_score_desc leaderboard in
  let leaderboard := firstn 3 leaderboard in
  save_leaderboard leaderboard.

(* ===================================================================== *)
(** * The /analyze endpoint *)
(* ===================================================================== *)

(** The request body, lines 60-63. *)
Record CodeSnippet : Type := Snippet {
  snippet_username : pystr;
  snippet_code : pystr;
  snippet_language : pystr
}.

(** What leaves [analyze_code] as an exception: the [HTTPException] it
    raises itself, or one that escaped from a callee. *)
Inductive http_exn : Type :=
  | HTTPException (status_code : Z) (detail : pystr)
  | Unhandled (e : exn).

(** The dict [results] of line 196. *)
Record breakdown : Type := Breakdown {
  comments_score : Z;
  formatting_score : Z;
  naming_score : Z;
  complexity_score : Z
}.

Inductive response : Type :=
  | ErrorResponse (error : pystr)
  | Analysis (username : pystr) (readability_score : Z)
             (results : breakdown) (suggestions : list pystr)
             (runtime memory output : pystr).

(** [generate_suggestions(results)], lines 312-318. *)
Definition generate_suggestions (results : breakdown) : list pystr :=
  (if comments_score results <? 50
   then [py "Add more meaningful comments to explain your code."] else [])
  ++
  (if formatting_score results <? 70
   then [py "Fix inconsistent formatting, long lines, or incorrect indentation."]
   else []).

(** [not s] for a string. *)
Definition is_empty (s : pystr) : bool :=
  match s with [] => true | _ :: _ => false end.

Section Analyze.

(** The readability scorers (lines 287-310), [str.lower] and the
    formatting of numbers in f-strings are pure functions of their
    argument; the endpoint is modelled for any such functions. *)
Variable str_lower : pystr -> pystr.
Variables evaluate_comments evaluate_formatting
          evaluate_naming_conventions evaluate_complexity : pystr -> Z.
Variable format_float : Q -> pystr.
Variable format_int : Z -> pystr.

(** [analyze_code(snippet)], lines 180-217. *)
Definition analyze_code (h : env) (snippet : CodeSnippet)
  : M world http_exn response :=
  let code := strip (snippet_code snippet) in
  let language := str_lower (snippet_language snippet) in
  let username := strip (snippet_username snippet) in
  if is_empty code || is_empty username then
    raise (HTTPException 400 (py "Code snippet and username cannot be empty."))
  else
    performance <- lift_exn Unhandled (execute_code_safely h code language) ;;
    match performance with
    | Error error => ret (ErrorResponse error)
    | Measured runtime memory output =>
        let results :=
          {| comments_score := evaluate_comments code;
             formatting_score := evaluate_formatting code;
             naming_score := evaluate_naming_conventions code;
             complexity_score := evaluate_complexity code |} in
        let total_score :=
          (comments_score results + formatting_score results
           + naming_score results + complexity_score results) / 4 in
        let suggestions := generate_suggestions results in
        update_leaderboard h username code language total_score runtime memory ;;;
        ret (Analysis username total_score results suggestions
                      (format_float runtime ++ py " seconds")
                      (format_int memory ++ py " KB")
                      output)
    end.

End Analyze.

(* ===================================================================== *)
(** * Derived notions and sample hosts *)
(* ===================================================================== *)

(** [language in LANGUAGE_COMMANDS] *)
Definition registered (h : env) (language : pystr) : Prop :=
  is_Some (LANGUAGE_COMMANDS h !! language).

(** The test of lines 139 and 145 under which [preexec_fn] is set:
    the host is neither macOS nor Windows. *)
Definition limits_supported (h : env) : bool :=
  negb (bool_decide (platform_system h = py "Darwin")
        || bool_decide (platform_system h = py "Windows")).

(** The peak [tracemalloc.get_traced_memory()] reports after the child
    has run, for a call that starts in [w]. *)
Definition peak_seen (h : env) (w : world) : N :=
  N.max (if tracing w then traced_peak w else 0%N) (host_alloc_peak h).

(** The value returned to the caller, and the world left behind. *)
Definition returned {E A} (r : (E + A) * world) : E + A := fst r.
Definition world_after {E A} (r : (E + A) * world) : world := snd r.

(** The classification of one request: what is returned, by what
    [subprocess.run] did. *)
Definition outcome_classified
    (h : env) (code language : pystr) (w : world) : Prop :=
  exists args,
    run_arguments h code language = Some args
    /\ (forall e, run_child h args = inl e -> exn_cls e = FileNotFoundError ->
          returned (execute_code_safely h code language w)
          = inr (Error MSG_NOT_FOUND))
    /\ (forall e, run_child h args = inl e -> exn_cls e = TimeoutExpired ->
          returned (execute_code_safely h code language w)
          = inr (Error MSG_TIMEOUT))
    /\ (forall p, run_child h args = inr p -> returncode p <> 0 ->
          returned (execute_code_safely h code language w)
          = inr (Error (py "Runtime Error:" ++ LF ++ strip (stderr p))))
    /\ (forall p, run_child h args = inr p -> returncode p = 0 ->
          returned (execute_code_safely h code language w)
          = inr (Measured (round_ndigits (clock_end h - clock_start h) 4)
                          (Z.quot (Z.of_N (peak_seen h w)) 1024)
                          (strip (stdout p)))).

(** A Linux host whose [subprocess.run] answers [child]. *)
Definition linux_host (child : spawn -> exn + CompletedProcess) : env :=
  {| sys_executable := py "/usr/bin/python3";
     platform_system := py "Linux";
     clock_start := 10 # 1;
     clock_end := 1012346 # 100000;
     host_alloc_peak := 20480%N;
     run_child := child;
     utcnow_isoformat := py "2024-01-01T00:00:00" |}.

(** Children: one that prints ["4\n"] and exits 0, one that writes
    ["  boom\n"] to stderr and exits 1, one that outlives the deadline,
    one whose binary is missing, one the OS refuses to start. *)
Definition child_prints_4 : spawn -> exn + CompletedProcess :=
  fun _ => inr {| returncode := 0; stdout := py "4" ++ LF; stderr := [] |}.
Definition child_exits_1 : spawn -> exn + CompletedProcess :=
  fun _ => inr {| returncode := 1; stdout := [];
                  stderr := py "  boom" ++ LF |}.
Definition child_hangs : spawn -> exn + CompletedProcess :=
  fun _ => inl (Exn TimeoutExpired (py "timed out after 2 seconds")).
Definition child_missing : spawn -> exn + CompletedProcess :=
  fun _ => inl (Exn FileNotFoundError (py "[Errno 2] No such file or directory: './a.out'")).
Definition child_denied : spawn -> exn + CompletedProcess :=
  fun _ => inl (Exn OtherException (py "[Errno 13] Permission denied: './a.out'")).

(** The same host during a request that allocates less. *)
Definition quiet (h : env) : env :=
  {| sys_executable := sys_executable h;
     platform_system := platform_system h;
     clock_start := clock_start h;
     clock_end := clock_end h;
     host_alloc_peak := 1024%N;
     run_child := run_child h;
     utcnow_isoformat := utcnow_isoformat h |}.

(** A fresh interpreter: tracer off, nothing spawned, empty leaderboard. *)
Definition fresh_world : world :=
  {| tracing := false; traced_peak := 0%N; spawned := []; leaderboard_file := [] |}.

(** A process with the usual unlimited defaults, unprivileged. *)
Definition default_proc : proc :=
  {| rlimits := fun _ => (RLIM_INFINITY, RLIM_INFINITY);
     cap_sys_resource := false |}.

(** The inherited hard limits let an unprivileged [limit_resources] go
    through, or the process is privileged. *)
Definition kernel_permits (p : proc) : Prop :=
  cap_sys_resource p = true
  \/ (rlim_leb (Rlim 2) (snd (rlimits p RLIMIT_CPU)) = true
      /\ rlim_leb (Rlim (512 * 1024 * 1024)) (snd (rlimits p RLIMIT_AS)) = true).

(** Scorers and formatters to run [analyze_code] on an example. *)
Definition sample_scorer : pystr -> Z := fun code => Z.of_nat (length code).
Definition sample_format_float : Q -> pystr := fun _ => py "0.1235".
Definition sample_format_int : Z -> pystr := fun _ => py "20".

(** Non-increasing order of score. *)
Definition score_ge (a b : entry) : Prop := e_score a >= e_score b.

(** How many entries of [l] score at least [score]: the entries a new
    entry with that score comes after in the stable descending order. *)
Definition outranking (score : Z) (l : list entry) : nat :=
  length (List.filter (fun x => score <=? e_score x) l).

(** Where an entry appended last ends up in the sorted list: behind
    every entry that scores at least as much. *)
Fixpoint insert_behind (x : entry) (l : list entry) : list entry :=
  match l with
  | [] => [x]
  | y :: l' =>
      if e_score x <=? e_score y then y :: insert_behind x l' else x :: l
  end.

(** A stored leaderboard for the examples. *)
Definition sample_entry (name : string) (score : Z) : entry :=
  {| e_username := py name; e_code := py "pass"; e_language := py "python";
     e_score := score; e_runtime := 1 # 10; e_memory := 20;
     e_timestamp := py "2023-12-31T00:00:00" |}.

Definition sample_leaderboard : list entry :=
  [sample_entry "ada" 90; sample_entry "bob" 80; sample_entry "cy" 80].

(* ===================================================================== *)
(** * Further sample hosts *)
(* ===================================================================== *)

(** A macOS host with the readings of [linux_host]. *)
Definition darwin_host (child : spawn -> exn + CompletedProcess) : env :=
  {| sys_executable := py "/usr/local/bin/python3";
     platform_system := py "Darwin";
     clock_start := 10 # 1;
     clock_end := 1012346 # 100000;
     host_alloc_peak := 20480%N;
     run_child := child;
     utcnow_isoformat := py "2024-01-01T00:00:00" |}.

(** A process that inherited a hard CPU limit of one second. *)
Definition throttled_proc : proc :=
  {| rlimits := fun r => match r with
                         | RLIMIT_CPU => (Rlim 1, Rlim 1)
                         | _ => (RLIM_INFINITY, RLIM_INFINITY)
                         end;
     cap_sys_resource := false |}.

(* ===================================================================== *)
(** * The leaderboard clean-up task *)
(* ===================================================================== *)

(** [GET /leaderboard], lines 234-236: the dict [{"leaderboard": ...}],
    given by its one value. *)
Definition get_leaderboard {E} : M world E (list entry) := load_leaderboard.

(** A [datetime]: microseconds on the proleptic calendar, without or
    with a UTC offset attached. *)
Inductive datetime : Type :=
  | Naive (microseconds : Z)
  | Aware (microseconds : Z).

Definition EXPIRATION_DAYS : Z := 7.

(** [timedelta(days=d)] in microseconds. *)
Definition timedelta_days (d : Z) : Z := d * 86400 * 1000000.

Section Cleanup.

(** [datetime.fromisoformat]: raises [ValueError] on a string it cannot
    read. *)
Variable fromisoformat : pystr -> exn + datetime.

(** [datetime.fromisoformat(entry["timestamp"]) > cutoff_time], where
    [cutoff_time] is naive, as [datetime.utcnow()] is: comparing it with
    an aware value raises [TypeError]. *)
Definition newer_than (cutoff_time : Z) (e : entry) : exn + bool :=
  match fromisoformat (e_timestamp e) with
  | inl err => inl err
  | inr (Naive t) => inr (cutoff_time <? t)
  | inr (Aware _) =>
      inl (Exn OtherException
             (py "can't compare offset-naive and offset-aware datetimes"))
  end.

(** The list comprehension of lines 272-275: entries are tested from
    the first on, the first exception ends it. *)
Fixpoint keep_newer (cutoff_time : Z) (leaderboard : list entry)
  : exn + list entry :=
  match leaderboard with
  | [] => inr []
  | e :: rest =>
      match newer_than cutoff_time e with
      | inl err => inl err
      | inr keep =>
          match keep_newer cutoff_time rest with
          | inl err => inl err
          | inr kept => inr (if keep then e :: kept else kept)
          end
      end
  end.

(** One round of the loop of [cleanup_leaderboard], lines 269-279, once
    the sleep is over; [utcnow] is the naive [datetime.utcnow()]. The
    result is the number the round prints, if it prints. *)
Definition cleanup_round (utcnow : Z) : M world exn (option nat) :=
  leaderboard <- load_leaderboard ;;
  let cutoff_time := utcnow - timedelta_days EXPIRATION_DAYS in
  match keep_newer cutoff_time leaderboard with
  | inl err => raise err
  | inr new_leaderboard =>
      if negb (length new_leaderboard =? length leaderboard)%nat then
        save_leaderboard new_leaderboard ;;;
        ret (Some (length leaderboard - length new_leaderboard)%nat)
      else ret None
  end.

(** The entry has a naive timestamp later than the cut-off. *)
Definition fresh_at (cutoff_time : Z) (e : entry) : bool :=
  match fromisoformat (e_timestamp e) with
  | inr (Naive t) => cutoff_time <? t
  | _ => false
  end.

(** The timestamp of the entry can be read and compared with a naive
    [datetime]. *)
Definition comparable (e : entry) : Prop :=
  exists t, fromisoformat (e_timestamp e) = inr (Naive t).

End Cleanup.

(** A reader of the timestamps of the examples: the two strings stand
    for microsecond 0 and for ten days later; anything else is refused. *)
Definition sample_fromisoformat (s : pystr) : exn + datetime :=
  if bool_decide (s = py "2023-12-31T00:00:00") then inr (Naive 0)
  else if bool_decide (s = py "2024-01-10T00:00:00") then
    inr (Naive (timedelta_days 10))
  else inl (Exn OtherException (py "Invalid isoformat string")).

Definition fresh_entry : entry :=
  {| e_username := py "eve"; e_code := py "pass"; e_language := py "python";
     e_score := 70; e_runtime := 1 # 10; e_memory := 20;
     e_timestamp := py "2024-01-10T00:00:00" |}.

Definition broken_entry : entry :=
  {| e_username := py "mal"; e_code := py "pass"; e_language := py "python";
     e_score := 60; e_runtime := 1 # 10; e_memory := 20;
     e_timestamp := py "yesterday" |}.

(* ===================================================================== *)
(** * Derived notions for the endpoint *)
(* ===================================================================== *)


(** [sum(results.values()) // len(results)] of line 203. *)
Definition mean_score (results : breakdown) : Z :=
  (comments_score results + formatting_score results
   + naming_score results + complexity_score results) / 4.

(** The dict [results] of lines 196-201 for given scorers. *)
Definition score_all (score_comments score_formatting score_naming
                      score_complexity : pystr -> Z) (code : pystr) : breakdown :=
  {| comments_score := score_comments code;
     formatting_score := score_formatting code;
     naming_score := score_naming code;
     complexity_score := score_complexity code |}.

(** A request with code and user name. *)
Definition sample_snippet : CodeSnippet :=
  {| snippet_username := py " ada ";
     snippet_code := py "print(2+2)" ++ LF;
     snippet_language := py "python" |}.

(* ===================================================================== *)
(** * The readability scorers that work on whole numbers *)
(* ===================================================================== *)

(** The line boundaries of [str.splitlines]. *)
Definition is_linebreak (c : char) : bool :=
  ((10 <=? c) && (c <=? 13))%N
  || ((28 <=? c) && (c <=? 30))%N
  || (c =? 133)%N || (c =? 8232)%N || (c =? 8233)%N.

(** [str.splitlines()]: [line] holds, last character first, what has
    been read of the current line. A carriage return directly followed
    by a line feed is one boundary; a boundary at the very end opens no
    further line. *)
Fixpoint splitlines_from (line : pystr) (s : pystr) : list pystr :=
  match s with
  | [] => match line with [] => [] | _ :: _ => [rev line] end
  | c :: s' =>
      if is_linebreak c then
        rev line ::
        match s' with
        | d :: s'' =>
            if (c =? 13)%N && (d =? 10)%N then splitlines_from [] s''
            else splitlines_from [] s'
        | [] => splitlines_from [] s'
        end
      else splitlines_from (c :: line) s'
  end.

Definition splitlines (s : pystr) : list pystr := splitlines_from [] s.

(** [sum(1 for line in lines if test(line))] *)
Definition count_lines (test : pystr -> bool) (lines : list pystr) : Z :=
  Z.of_nat (length (List.filter test lines)).

(** [line.count(c)] for a one-character [c]. *)
Definition count_char (c : char) (line : pystr) : Z :=
  Z.of_nat (length (List.filter (N.eqb c) line)).

(** [line.startswith(" ")] *)
Definition starts_with_space (line : pystr) : bool :=
  match line with
  | c :: _ => (c =? 32)%N
  | [] => false
  end.

(** The two tests of [evaluate_formatting]. *)
Definition is_long (line : pystr) : bool := 80 <? Z.of_nat (length line).
Definition is_misindented (line : pystr) : bool :=
  starts_with_space line && negb (Z.of_nat (length line) mod 4 =? 0).

(** [evaluate_formatting(code)], lines 295-300. *)
Definition evaluate_formatting (code : pystr) : Z :=
  let lines := splitlines code in
  let long_lines := count_lines is_long lines in
  let improper_indent := count_lines is_misindented lines in
  let penalty := long_lines * 2 + improper_indent * 3 in
  Z.max 0 (100 - penalty).

(** [max(l, default=d)] *)
Definition max_default (l : list Z) (d : Z) : Z :=
  match l with
  | [] => d
  | x :: l' => fold_left Z.max l' x
  end.

(** [line.count("{") - line.count("}")] *)
Definition brace_balance (line : pystr) : Z :=
  count_char 123%N line - count_char 125%N line.

(** [evaluate_complexity(code)], lines 308-310. *)
Definition evaluate_complexity (code : pystr) : Z :=
  let nesting_levels :=
    max_default (List.map brace_balance (splitlines code)) 0 in
  Z.max 0 (100 - nesting_levels * 10).

(* ===================================================================== *)
(** * The optimisation endpoint *)
(* ===================================================================== *)

(** [needle in hay] for strings, as a test. *)
Fixpoint starts_with (needle hay : pystr) : bool :=
  match needle, hay with
  | [], _ => true
  | _ :: _, [] => false
  | a :: needle', b :: hay' => (a =? b)%N && starts_with needle' hay'
  end.

Fixpoint contains (needle hay : pystr) : bool :=
  starts_with needle hay
  || match hay with
     | [] => false
     | _ :: hay' => contains needle hay'
     end.

(** A decoded JSON document. The items of an object are looked up from
    the front. *)
#[local] Unset Elimination Schemes.
Inductive json : Type :=
  | JNull
  | JBool (b : bool)
  | JInt (n : Z)
  | JFloat (q : Q)
  | JStr (s : pystr)
  | JArr (items : list json)
  | JObj (members : list (pystr * json)).
#[local] Set Elimination Schemes.

(** The exceptions of [optimize_code_with_deepseek]. [Caught] ones are
    instances of [requests.exceptions.RequestException], named by the
    [except] clause that catches them first ([ConnectionError] stands
    for that class and its subclasses, a connect timeout among them;
    [Timeout] for the timeouts that are no connection error;
    [RequestException] for the rest), with [str(e)]. [Uncaught] ones
    are the exceptions no clause catches, by their class. *)
Inductive except_clause : Type :=
  | HTTPError
  | ConnectionError
  | Timeout
  | RequestException.

Inductive python_error : Type :=
  | TypeError
  | AttributeError
  | IndexError
  | KeyError
  | OtherPythonError.

Inductive api_exn : Type :=
  | Caught (clause : except_clause) (text : pystr)
  | Uncaught (kind : python_error).

Module Json.

Fixpoint lookup (key : pystr) (members : list (pystr * json)) : option json :=
  match members with
  | [] => None
  | (k, v) :: rest => if bool_decide (k = key) then Some v else lookup key rest
  end.

Definition is_str (key : pystr) (j : json) : bool :=
  match j with
  | JStr s => bool_decide (s = key)
  | _ => false
  end.

(** [key in j] for a string [key]: a key of a dict, a member of a
    list, a substring of a string; other values are not iterable. *)
Definition has (key : pystr) (j : json) : api_exn + bool :=
  match j with
  | JObj members => inr (bool_decide (is_Some (lookup key members)))
  | JArr items => inr (existsb (is_str key) items)
  | JStr s => inr (contains key s)
  | _ => inl (Uncaught TypeError)
  end.

(** [j.get(key, default)]: only a dict has it. *)
Definition get (key : pystr) (default : json) (j : json) : api_exn + json :=
  match j with
  | JObj members =>
      inr (match lookup key members with Some v => v | None => default end)
  | _ => inl (Uncaught AttributeError)
  end.

(** [j[0]] *)
Definition first (j : json) : api_exn + json :=
  match j with
  | JArr (x :: _) => inr x
  | JArr [] => inl (Uncaught IndexError)
  | JStr (c :: _) => inr (JStr [c])
  | JStr [] => inl (Uncaught IndexError)
  | JObj _ => inl (Uncaught KeyError)
  | _ => inl (Uncaught TypeError)
  end.

(** [j[key]] for a string [key]. *)
Definition item (key : pystr) (j : json) : api_exn + json :=
  match j with
  | JObj members =>
      match lookup key members with
      | Some v => inr v
      | None => inl (Uncaught KeyError)
      end
  | _ => inl (Uncaught TypeError)
  end.

(** [j.strip()]: only a string has it. *)
Definition stripped (j : json) : api_exn + pystr :=
  match j with
  | JStr s => inr (strip s)
  | _ => inl (Uncaught AttributeError)
  end.

End Json.

(** The module-level settings read from the environment, lines 36-38:
    [None] when the variable is not set. *)
Record api_config : Type := ApiConfig {
  OLLAMA_API_URL : option pystr;
  OLLAMA_API_KEY : option pystr;
  OLLAMA_JWT_TOKEN : option pystr
}.

(** [not v] for an optional string. *)
Definition unset (v : option pystr) : bool :=
  match v with
  | None => true
  | Some s => is_empty s
  end.

(** The text an f-string puts for an optional string. *)
Definition fmt (v : option pystr) : pystr :=
  match v with
  | None => py "None"
  | Some s => s
  end.

(** One [requests.post] call: the URL, the headers and the JSON body of
    lines 86-97. *)
Record http_request : Type := HttpRequest {
  rq_url : pystr;
  rq_headers : list (pystr * pystr);
  rq_model : pystr;
  rq_prompt : pystr;
  rq_temperature : Q;
  rq_max_tokens : Z
}.

(** A response: [raise_for_status()] raises for [Some e], and
    [json()] gives the decoded body or raises. *)
Record http_response : Type := HttpResponse {
  status_error : option api_exn;
  json_body : api_exn + json
}.

(** What the network answers to a request. *)
Definition api_host : Type := http_request -> api_exn + http_response.

(** Computations that send requests: the state is the log of the
    requests sent so far. *)
Definition requests_post (net : api_host) (rq : http_request)
  : M (list http_request) api_exn http_response :=
  fun log => (net rq, log ++ [rq]).

Definition lift_result {S E A} (r : E + A) : M S E A := fun s => (r, s).

Definition MSG_NO_URL : pystr := py "Error: No Ollama API URL provided.".
Definition MSG_NO_CREDENTIALS : pystr :=
  py "Error: Missing API credentials (API Key or JWT Token).".
Definition MSG_NO_VALID_RESPONSE : pystr :=
  [9888%N; 65039%N] ++ py " Error: No valid response from DeepSeek.".
Definition MSG_CONNECT : pystr := py "Error: Failed to connect to DeepSeek API.".
Definition MSG_API_TIMEOUT : pystr := py "Error: DeepSeek API request timed out.".

(** The [try] block of [optimize_code_with_deepseek], lines 100-112. *)
Definition deepseek_body (net : api_host) (rq : http_request)
  : M (list http_request) api_exn pystr :=
  response <- requests_post net rq ;;
  match status_error response with
  | Some e => raise e
  | None =>
      response_json <- lift_result (json_body response) ;;
      in_choices <- lift_result (Json.has (py "choices") response_json) ;;
      optimized_code <-
        (if in_choices : bool then
           choices <- lift_result
                        (Json.get (py "choices") (JArr [JObj []]) response_json) ;;
           choice <- lift_result (Json.first choices) ;;
           text <- lift_result (Json.get (py "text") (JStr []) choice) ;;
           s <- lift_result (Json.stripped text) ;;
           ret (Some s)
         else
           in_response <- lift_result (Json.has (py "response") response_json) ;;
           if in_response : bool then
             text <- lift_result (Json.item (py "response") response_json) ;;
             s <- lift_result (Json.stripped text) ;;
             ret (Some s)
           else ret None) ;;
      match optimized_code with
      | Some (c :: s) => ret (c :: s)
      | _ => ret MSG_NO_VALID_RESPONSE
      end
  end.

(** The [except] clauses, lines 114-121; an exception none of them
    catches goes on to the caller. *)
Definition deepseek_handlers (e : api_exn) : M (list http_request) api_exn pystr :=
  match e with
  | Caught HTTPError text => ret (py "HTTP Error: " ++ text)
  | Caught ConnectionError _ => ret MSG_CONNECT
  | Caught Timeout _ => ret MSG_API_TIMEOUT
  | Caught RequestException text => ret (py "Error calling DeepSeek API: " ++ text)
  | Uncaught _ => raise e
  end.

(** The [headers] and [payload] of lines 86-97 and the URL they are
    posted to. *)
Definition deepseek_request (cfg : api_config) (code language : pystr)
  : http_request :=
  {| rq_url := fmt (OLLAMA_API_URL cfg);
     rq_headers :=
       [ (py "Authorization", py "Bearer " ++ fmt (OLLAMA_JWT_TOKEN cfg));
         (py "Content-Type", py "application/json");
         (py "x-api-key", fmt (OLLAMA_API_KEY cfg)) ];
     rq_model := py "deepseek-code";
     rq_prompt := py "Optimize this " ++ language
                  ++ py " code while preserving its functionality:" ++ LF ++ code;
     rq_temperature := 3 # 10;
     rq_max_tokens := 1024 |}.

(** [optimize_code_with_deepseek(code, language)], lines 79-121. *)
Definition optimize_code_with_deepseek (cfg : api_config) (net : api_host)
    (code language : pystr) : M (list http_request) api_exn pystr :=
  if unset (OLLAMA_API_URL cfg) then ret MSG_NO_URL
  else if unset (OLLAMA_API_KEY cfg) || unset (OLLAMA_JWT_TOKEN cfg) then
    ret MSG_NO_CREDENTIALS
  else
    try_except (deepseek_body net (deepseek_request cfg code language))
               deepseek_handlers.

(** All three settings are present and not empty. *)
Definition configured (cfg : api_config) : Prop :=
  unset (OLLAMA_API_URL cfg) = false
  /\ unset (OLLAMA_API_KEY cfg) = false
  /\ unset (OLLAMA_JWT_TOKEN cfg) = false.

(** What leaves [optimize_code] as an exception. *)
Inductive api_failure : Type :=
  | ApiHTTPException (status_code : Z) (detail : pystr)
  | ApiUnhandled (e : api_exn).

(** The body [optimize_code] returns. *)
Record optimize_response : Type := OptimizeResponse {
  or_username : pystr;
  or_original_code : pystr;
  or_optimized_code : pystr;
  or_language : pystr
}.

(** [optimize_code(snippet)], lines 219-232. *)
Definition optimize_code (cfg : api_config) (net : api_host) (snippet : CodeSnippet)
  : M (list http_request) api_failure optimize_response :=
  optimized_code <- lift_exn ApiUnhandled
                      (optimize_code_with_deepseek cfg net (snippet_code snippet)
                                                   (snippet_language snippet)) ;;
  if contains (py "Error") optimized_code then
    raise (ApiHTTPException 500 optimized_code)
  else
    ret {| or_username := snippet_username snippet;
           or_original_code := snippet_code snippet;
           or_optimized_code := optimized_code;
           or_language := snippet_language snippet |}.

(** Settings and networks for the examples. *)
Definition sample_config : api_config :=
  {| OLLAMA_API_URL := Some (py "http://localhost:11434/api/generate");
     OLLAMA_API_KEY := Some (py "key");
     OLLAMA_JWT_TOKEN := Some (py "token") |}.

Definition no_url_config : api_config :=
  {| OLLAMA_API_URL := None;
     OLLAMA_API_KEY := Some (py "key");
     OLLAMA_JWT_TOKEN := Some (py "token") |}.

Definition net_answers (body : json) : api_host :=
  fun _ => inr {| status_error := None; json_body := inr body |}.

Definition net_refuses : api_host :=
  fun _ => inl (Caught ConnectionError (py "Connection refused")).

(* ===================================================================== *)
(** * Facts about strings and numbers *)
(* ===================================================================== *)

Section StripFacts.

Lemma lstrip_split (s : pystr) :
  exists l, s = l ++ lstrip s /\ Forall (fun c => isspace c = true) l.
Proof.
  induction s as [|c s [l [Hs Hl]]]; simpl.
  - exists []. split; [reflexivity | constructor].
  - destruct (isspace c) eqn:Hc.
    + exists (c :: l). split; [simpl; congruence | constructor; assumption].
    + exists []. split; [reflexivity | constructor].
Qed.

Lemma lstrip_head (s : pystr) (c : char) (t : pystr) :
  lstrip s = c :: t -> isspace c = false.
Proof.
  induction s as [|d s IH]; simpl; [discriminate|].
  destruct (isspace d) eqn:Hd; [exact IH|].
  intros [= -> _]. exact Hd.
Qed.

(** What [strip] removes is whitespace at both ends, and nothing
    else; what it leaves neither starts nor ends with whitespace. *)
Lemma strip_spec (s : pystr) :
  exists l r,
    s = l ++ strip s ++ r
    /\ Forall (fun c => isspace c = true) l
    /\ Forall (fun c => isspace c = true) r
    /\ (forall c t, strip s = c :: t -> isspace c = false)
    /\ (forall c t, strip s = t ++ [c] -> isspace c = false).
Proof.
  destruct (lstrip_split s) as [l [Hl Fl]].
  destruct (lstrip_split (rev (lstrip s))) as [r' [Hr Fr]].
  assert (Hmid : lstrip s = strip s ++ rev r').
  { unfold strip, rstrip.
    rewrite <- (rev_involutive (lstrip s)) at 1.
    rewrite Hr at 1. now rewrite rev_app_distr. }
  assert (Hlast : forall c t, strip s = t ++ [c] -> isspace c = false).
  { intros c t Ht. unfold strip, rstrip in Ht.
    apply (f_equal (@rev char)) in Ht.
    rewrite rev_involutive, rev_app_distr in Ht. simpl in Ht.
    exact (lstrip_head _ _ _ Ht). }
  exists l, (rev r'). repeat split.
  - rewrite <- Hmid. exact Hl.
  - exact Fl.
  - apply List.Forall_rev. exact Fr.
  - intros c t Ht.
    destruct t as [|d t'] using rev_ind.
    + exact (Hlast c [] Ht).
    + apply (lstrip_head s c (t' ++ [d] ++ rev r')).
      rewrite Hmid, Ht. simpl. now rewrite <- app_assoc.
  - exact Hlast.
Qed.

End StripFacts.

Section RoundFacts.

#[local] Open Scope Q_scope.

(** Rounding to an integer moves a number by at most one half. *)
Lemma round_half_even_close (y : Q) :
  Qabs (inject_Z (round_half_even y) - y) <= 1 # 2.
Proof.
  pose proof (Qfloor_le y) as Hlo.
  pose proof (Qlt_floor y) as Hhi.
  rewrite inject_Z_plus in Hhi. change (inject_Z 1) with 1 in Hhi.
  apply Qabs_Qle_condition. unfold round_half_even.
  destruct (Qcompare (y - inject_Z (Qfloor y)) (1 # 2)) eqn:Hc.
  - apply Qeq_alt in Hc.
    destruct (Z.even (Qfloor y));
      rewrite ?inject_Z_plus; change (inject_Z 1) with 1; split; lra.
  - apply Qlt_alt in Hc. split; lra.
  - apply Qgt_alt in Hc.
    rewrite inject_Z_plus; change (inject_Z 1) with 1. split; lra.
Qed.

Lemma pow10_pos (n : N) : 0 < inject_Z (10 ^ Z.of_N n).
Proof.
  change 0 with (inject_Z 0). rewrite <- Zlt_Qlt.
  apply Z.pow_pos_nonneg; lia.
Qed.

(** [round(x, n)] is a decimal with [n] digits after the point... *)
Lemma round_ndigits_decimal (x : Q) (n : N) :
  exists k : Z, round_ndigits x n == inject_Z k / inject_Z (10 ^ Z.of_N n).
Proof. eexists. unfold round_ndigits. reflexivity. Qed.

(** ...at most half a unit of the last digit away from [x]. *)
Lemma round_ndigits_close (x : Q) (n : N) :
  Qabs (round_ndigits x n - x) <= (1 # 2) / inject_Z (10 ^ Z.of_N n).
Proof.
  unfold round_ndigits.
  pose proof (pow10_pos n) as Hs.
  set (s := inject_Z (10 ^ Z.of_N n)) in *.
  pose proof (round_half_even_close (x * s)) as Hk.
  set (k := inject_Z (round_half_even (x * s))) in *.
  assert (Hne : ~ s == 0) by (intros E; rewrite E in Hs; inversion Hs).
  assert (Hinv : 0 < / s) by (apply Qinv_lt_0_compat; exact Hs).
  assert (Heq : k / s - x == (k - x * s) * / s) by (field; exact Hne).
  rewrite Heq, Qabs_Qmult, (Qabs_pos (/ s)) by (apply Qlt_le_weak; exact Hinv).
  unfold Qdiv. apply Qmult_le_compat_r; [exact Hk | apply Qlt_le_weak; exact Hinv].
Qed.

End RoundFacts.

(* ===================================================================== *)
(** * Facts about the execution engine *)
(* ===================================================================== *)

Lemma registered_cases (h : env) (language : pystr) :
  registered h language <->
  language = py "python" \/ language = py "javascript"
  \/ language = py "java" \/ language = py "cpp".
Proof.
  unfold registered, LANGUAGE_COMMANDS.
  rewrite !lookup_insert_is_Some, lookup_empty.
  split.
  - intros [ <- | [_ [ <- | [_ [ <- | [_ [ <- | [_ H]]]]]]]]; auto.
    destruct H as [? H]; discriminate.
  - intros [ -> | [ -> | [ -> | -> ]]].
    + do 3 (right; split; [discriminate|]). now left.
    + do 2 (right; split; [discriminate|]). now left.
    + do 1 (right; split; [discriminate|]). now left.
    + now left.
Qed.

(** The registry and the if/elif chain know the same languages, so the
    final [else] of line 157 is dead code. *)
Lemma run_arguments_registered (h : env) (code language : pystr) :
  registered h language ->
  exists args, run_arguments h code language = Some args.
Proof.
  intros H. apply registered_cases in H.
  destruct H as [ -> | [ -> | [ -> | -> ]]]; unfold run_arguments; eexists; reflexivity.
Qed.

(** One call for a registered language, step by step. *)
Lemma execute_registered (h : env) (code language : pystr) (w : world) (args : spawn) :
  registered h language ->
  run_arguments h code language = Some args ->
  execute_code_safely h code language w =
    let w1 := if tracing w then w else set_tracer true 0%N w in
    let w2 := set_tracer true (peak_seen h w) (log_spawn args w1) in
    match run_child h args with
    | inl e => execute_handlers e w2
    | inr result =>
        (inr (if negb (returncode result =? 0)
              then Error (MSG_RUNTIME_ERROR (strip (stderr result)))
              else Measured (round_ndigits (clock_end h - clock_start h) 4)
                            (Z.of_N (peak_seen h w) / 1024)
                            (strip (stdout result))),
         set_tracer false 0%N w2)
    end.
Proof.
  intros [cmd Hcmd] Hargs.
  unfold execute_code_safely. rewrite Hcmd.
  unfold try_except, execute_body, bind, ret, tracemalloc.start,
    tracemalloc.get_traced_peak, tracemalloc.stop, subprocess.run, peak_seen.
  rewrite Hargs. cbn zeta.
  destruct (tracing w) eqn:Ht; cbn [tracing log_spawn set_tracer traced_peak];
    rewrite ?Ht; cbn [tracing log_spawn set_tracer traced_peak];
    destruct (run_child h args) as [e|result]; try reflexivity;
    destruct (negb (returncode result =? 0)); reflexivity.
Qed.

(** A call for a registered language makes exactly one [subprocess.run]
    call, with the arguments the if/elif chain chose. *)
Lemma spawn_logged (h : env) (code language : pystr) (w : world) (args : spawn) :
  registered h language ->
  run_arguments h code language = Some args ->
  spawned (world_after (execute_code_safely h code language w))
  = spawned w ++ [args].
Proof.
  intros Hr Ha. rewrite (execute_registered h code language w args Hr Ha).
  cbn zeta. destruct (run_child h args) as [e|p].
  - unfold execute_handlers. destruct (exn_cls e), (tracing w); reflexivity.
  - destruct (tracing w); reflexivity.
Qed.

(** On a host where limits are supported, the two interpreter branches
    install [limit_resources] as the pre-exec step. *)
Lemma interpreters_run_limited (h : env) (code language : pystr) :
  limits_supported h = true ->
  language = py "python" \/ language = py "javascript" ->
  exists args, run_arguments h code language = Some args
               /\ preexec_fn args = Some limit_resources.
Proof.
  unfold limits_supported. intros Hp Hl.
  apply negb_true_iff in Hp.
  destruct Hl as [ -> | -> ]; unfold run_arguments; rewrite Hp;
    eexists; split; reflexivity.
Qed.

(** The three branches other than python pass the registry's command,
    followed by the snippet where the command is an interpreter. *)
Lemma launch_command_matches_registry (h : env) (code : pystr) :
  (exists args cmd, run_arguments h code (py "javascript") = Some args
     /\ LANGUAGE_COMMANDS h !! py "javascript" = Some cmd
     /\ argv args = cmd ++ [code])
  /\ (exists args cmd, run_arguments h code (py "java") = Some args
     /\ LANGUAGE_COMMANDS h !! py "java" = Some cmd
     /\ argv args = cmd)
  /\ (exists args cmd, run_arguments h code (py "cpp") = Some args
     /\ LANGUAGE_COMMANDS h !! py "cpp" = Some cmd
     /\ argv args = cmd).
Proof.
  repeat split; eexists; eexists; (split; [reflexivity|]); split; reflexivity.
Qed.

(** The tracer is stopped whenever the child ran to completion. *)
Lemma tracer_stopped_on_completion (h : env) (code language : pystr)
    (w : world) (args : spawn) (p : CompletedProcess) :
  registered h language ->
  run_arguments h code language = Some args ->
  run_child h args = inr p ->
  tracing (world_after (execute_code_safely h code language w)) = false.
Proof.
  intros Hr Ha Hp. rewrite (execute_registered h code language w args Hr Ha).
  cbn zeta. rewrite Hp. reflexivity.
Qed.

(** It is left running whenever [subprocess.run] raised. *)
Lemma tracer_running_after_exception (h : env) (code language : pystr)
    (w : world) (args : spawn) (e : exn) :
  registered h language ->
  run_arguments h code language = Some args ->
  run_child h args = inl e ->
  tracing (world_after (execute_code_safely h code language w)) = true.
Proof.
  intros Hr Ha He. rewrite (execute_registered h code language w args Hr Ha).
  cbn zeta. rewrite He. unfold execute_handlers.
  destruct (exn_cls e); reflexivity.
Qed.

(* ===================================================================== *)
(** * Properties of the execution engine *)
(* ===================================================================== *)

(** C1, at the inputs where the code departs from it: on a Linux host,
    where resource limits are supported, a request for the registered
    language java makes exactly one [subprocess.run] call, and that call
    has no pre-exec step: [limit_resources] is not installed in the
    child. The same holds for cpp. *)
Theorem java_child_runs_without_limiter :
  forall (child : spawn -> exn + CompletedProcess) (code : pystr) (w : world),
    limits_supported (linux_host child) = true
    /\ registered (linux_host child) (py "java")
    /\ spawned (world_after (execute_code_safely (linux_host child) code (py "java") w))
       = spawned w ++ [ {| argv := [py "java"; py "Main"]; timeout := 2;
                           preexec_fn := None |} ]
    /\ registered (linux_host child) (py "cpp")
    /\ spawned (world_after (execute_code_safely (linux_host child) code (py "cpp") w))
       = spawned w ++ [ {| argv := [py "./a.out"]; timeout := 2;
                           preexec_fn := None |} ].
Proof.
  intros child code w.
  assert (Hjava : registered (linux_host child) (py "java"))
    by (apply registered_cases; auto).
  assert (Hcpp : registered (linux_host child) (py "cpp"))
    by (apply registered_cases; auto).
  split; [reflexivity|].
  split; [exact Hjava|]. split; [apply (spawn_logged _ _ _ _ _ Hjava eq_refl)|].
  split; [exact Hcpp|]. apply (spawn_logged _ _ _ _ _ Hcpp eq_refl).
Qed.

(** C2: for a registered language the outcome is classified by what the
    one [subprocess.run] call did: it raised [FileNotFoundError] (binary
    missing): the not-found error; it raised [TimeoutExpired]: the
    timeout error; it completed with a non-zero exit code: the error
    ["Runtime Error:\n"] followed by the stripped stderr; it completed
    with exit code 0: the measured outcome with the stripped stdout, the
    elapsed time rounded to 4 decimals and the traced peak in KiB,
    truncated toward zero. *)
Theorem classification_policy (h : env) (code language : pystr) (w : world) :
  registered h language ->
  outcome_classified h code language w.
Proof.
  intros Hr. destruct (run_arguments_registered h code language Hr) as [args Ha].
  exists args. split; [exact Ha|].
  unfold returned. rewrite (execute_registered h code language w args Hr Ha).
  cbn zeta. repeat split.
  - intros e -> Hc. unfold execute_handlers. rewrite Hc. reflexivity.
  - intros e -> Hc. unfold execute_handlers. rewrite Hc. reflexivity.
  - intros p -> Hrc. apply Z.eqb_neq in Hrc. rewrite Hrc. reflexivity.
  - intros p -> Hrc. rewrite Hrc. cbn [Z.eqb negb fst].
    rewrite Z.quot_div_nonneg by lia. reflexivity.
Qed.

Lemma classification_policy_witness :
  registered (linux_host child_prints_4) (py "python")
  /\ returned (execute_code_safely (linux_host child_prints_4)
                 (py "print(2+2)") (py "python") fresh_world)
     = inr (Measured (1235 # 10000) 20 (py "4"))
  /\ returned (execute_code_safely (linux_host child_exits_1)
                 (py "raise SystemExit(1)") (py "python") fresh_world)
     = inr (Error (py "Runtime Error:" ++ LF ++ py "boom"))
  /\ returned (execute_code_safely (linux_host child_hangs)
                 (py "while True: pass") (py "python") fresh_world)
     = inr (Error MSG_TIMEOUT)
  /\ returned (execute_code_safely (linux_host child_missing)
                 (py "int main() {}") (py "cpp") fresh_world)
     = inr (Error MSG_NOT_FOUND).
Proof.
  assert (Hpy : forall child, registered (linux_host child) (py "python"))
    by (intros child; apply registered_cases; auto).
  assert (Hcpp : forall child, registered (linux_host child) (py "cpp"))
    by (intros child; apply registered_cases; auto).
  split; [apply Hpy|]. split; [|split; [|split]].
  - destruct (classification_policy (linux_host child_prints_4)
                (py "print(2+2)") (py "python") fresh_world (Hpy _))
      as (args & _ & _ & _ & _ & Hok).
    exact (Hok _ eq_refl eq_refl).
  - destruct (classification_policy (linux_host child_exits_1)
                (py "raise SystemExit(1)") (py "python") fresh_world (Hpy _))
      as (args & _ & _ & _ & Herr & _).
    apply (Herr _ eq_refl). discriminate.
  - destruct (classification_policy (linux_host child_hangs)
                (py "while True: pass") (py "python") fresh_world (Hpy _))
      as (args & _ & _ & Hto & _ & _).
    exact (Hto _ eq_refl eq_refl).
  - destruct (classification_policy (linux_host child_missing)
                (py "int main() {}") (py "cpp") fresh_world (Hcpp _))
      as (args & _ & Hnf & _ & _ & _).
    exact (Hnf _ eq_refl eq_refl).
Defined.

(** C3: a language that is not a key of [LANGUAGE_COMMANDS] gets the
    unsupported-language error at once: the world is left as it was, in
    particular no [subprocess.run] call was made. *)
Theorem unsupported_language_spawns_nothing
    (h : env) (code language : pystr) (w : world) :
  LANGUAGE_COMMANDS h !! language = None ->
  execute_code_safely h code language w = (inr (Error MSG_UNSUPPORTED), w)
  /\ spawned (world_after (execute_code_safely h code language w)) = spawned w.
Proof.
  intros H. unfold execute_code_safely. rewrite H. split; reflexivity.
Qed.

Lemma unsupported_language_spawns_nothing_witness :
  LANGUAGE_COMMANDS (linux_host child_prints_4) !! py "ruby" = None
  /\ (execute_code_safely (linux_host child_prints_4) (py "puts 4") (py "ruby") fresh_world
      = (inr (Error MSG_UNSUPPORTED), fresh_world)
      /\ spawned (world_after (execute_code_safely (linux_host child_prints_4)
                                 (py "puts 4") (py "ruby") fresh_world))
         = spawned fresh_world).
Proof.
  split.
  - vm_compute. reflexivity.
  - apply unsupported_language_spawns_nothing. vm_compute. reflexivity.
Defined.

(** C4: every call returns an outcome, the error dict or the measured
    dict, and no exception leaves [execute_code_safely], whatever the
    language and whatever [subprocess.run] does (time out, miss its
    binary, raise anything else, complete). *)
Theorem execute_code_safely_always_returns
    (h : env) (code language : pystr) (w : world) :
  exists (o : outcome) (w' : world),
    execute_code_safely h code language w = (inr o, w').
Proof.
  unfold execute_code_safely.
  destruct (LANGUAGE_COMMANDS h !! language) as [cmd|] eqn:Hcmd.
  - unfold try_except.
    destruct (execute_body h code language w) as [[e|o] w'].
    + unfold execute_handlers. destruct (exn_cls e); eexists; eexists; reflexivity.
    + eexists; eexists; reflexivity.
  - eexists; eexists; reflexivity.
Qed.

(** C5, at the input where the code departs from it: a python request
    that times out returns the timeout error with the tracer still
    running, and the next, successful request reports the peak of the
    first one (20 KiB) although its own allocations stay below 1 KiB. *)
Theorem tracer_left_running_after_timeout :
  let first := execute_code_safely (linux_host child_hangs)
                 (py "while True: pass") (py "python") fresh_world in
  let second := execute_code_safely (quiet (linux_host child_prints_4))
                  (py "print(2+2)") (py "python") (world_after first) in
  returned first = inr (Error MSG_TIMEOUT)
  /\ tracing (world_after first) = true
  /\ traced_peak (world_after first) = 20480%N
  /\ returned second = inr (Measured (1235 # 10000) 20 (py "4")).
Proof. vm_compute. repeat split; reflexivity. Qed.

(** C6 as stated fails: there is a request in which [subprocess.run]
    raises an exception that is neither a timeout nor a missing file,
    and the returned message contains the exception text. *)
Lemma internal_error_leaks_exception_text :
  ~ (forall (h : env) (code language : pystr) (w : world) (args : spawn) (e : exn),
       registered h language ->
       run_arguments h code language = Some args ->
       run_child h args = inl e ->
       exn_cls e = OtherException ->
       exists msg,
         returned (execute_code_safely h code language w) = inr (Error msg)
         /\ ~ occurs_in (exn_str e) msg).
Proof.
  intros H.
  destruct (H (linux_host child_denied) [] (py "cpp") fresh_world
              {| argv := [py "./a.out"]; timeout := 2; preexec_fn := None |}
              (Exn OtherException (py "[Errno 13] Permission denied: './a.out'")))
    as [msg [Hmsg Hno]].
  - apply registered_cases. auto.
  - reflexivity.
  - reflexivity.
  - reflexivity.
  - apply Hno. vm_compute in Hmsg. injection Hmsg as <-.
    exists (py "Unexpected error: "), []. vm_compute. reflexivity.
Qed.

(** C6 as amended: for an exception that is neither a timeout nor a
    missing file, the returned outcome is the error whose message is
    the fixed prefix ["Unexpected error: "] followed by [str(e)]. *)
Theorem unexpected_error_message
    (h : env) (code language : pystr) (w : world) (args : spawn) (e : exn) :
  registered h language ->
  run_arguments h code language = Some args ->
  run_child h args = inl e ->
  exn_cls e = OtherException ->
  returned (execute_code_safely h code language w)
  = inr (Error (py "Unexpected error: " ++ exn_str e)).
Proof.
  intros Hr Ha He Hc. unfold returned.
  rewrite (execute_registered h code language w args Hr Ha). cbn zeta.
  rewrite He. unfold execute_handlers. rewrite Hc. reflexivity.
Qed.

Lemma unexpected_error_message_witness :
  returned (execute_code_safely (linux_host child_denied) [] (py "cpp") fresh_world)
  = inr (Error (py "Unexpected error: "
                ++ py "[Errno 13] Permission denied: './a.out'")).
Proof.
  apply (unexpected_error_message (linux_host child_denied) [] (py "cpp") fresh_world
           {| argv := [py "./a.out"]; timeout := 2; preexec_fn := None |}
           (Exn OtherException (py "[Errno 13] Permission denied: './a.out'"))).
  - apply registered_cases. auto.
  - reflexivity.
  - reflexivity.
  - reflexivity.
Defined.

(** C7, at the input where the code departs from it: the registry
    records [sys.executable, "-c"] for python, here
    ["/usr/bin/python3", "-c"], but the child is spawned with
    ["python3", "-c", code], which is not that command followed by the
    snippet. *)
Theorem python_child_not_launched_from_registry :
  forall (child : spawn -> exn + CompletedProcess) (code : pystr) (w : world),
    LANGUAGE_COMMANDS (linux_host child) !! py "python"
    = Some [py "/usr/bin/python3"; py "-c"]
    /\ spawned (world_after (execute_code_safely (linux_host child) code (py "python") w))
       = spawned w ++ [ {| argv := [py "python3"; py "-c"; code]; timeout := 2;
                           preexec_fn := Some limit_resources |} ]
    /\ [py "python3"; py "-c"; code] <> [py "/usr/bin/python3"; py "-c"] ++ [code].
Proof.
  intros child code w.
  assert (Hr : registered (linux_host child) (py "python"))
    by (apply registered_cases; auto).
  split; [reflexivity|]. split; [|discriminate].
  apply (spawn_logged _ _ _ _ _ Hr eq_refl).
Qed.

(* ===================================================================== *)
(** * The resource limiter *)
(* ===================================================================== *)

(** Whenever [limit_resources] returns normally, both ceilings are in
    place and nothing else was touched. *)
Lemma limit_resources_post (p p' : proc) :
  limit_resources p = (inr tt, p') ->
  rlimits p' RLIMIT_CPU = (Rlim 2, Rlim 2)
  /\ rlimits p' RLIMIT_AS = (Rlim (512 * 1024 * 1024), Rlim (512 * 1024 * 1024))
  /\ (forall r, r <> RLIMIT_CPU -> r <> RLIMIT_AS -> rlimits p' r = rlimits p r).
Proof.
  unfold limit_resources, bind, setrlimit, raise.
  assert (Hrefl : forall n, rlim_leb (Rlim n) (Rlim n) = true)
    by (intros n; apply Z.leb_refl).
  rewrite !Hrefl. cbn [negb].
  destruct (negb (_ || cap_sys_resource p)); [discriminate|].
  cbn [set_rlimits rlimits cap_sys_resource].
  destruct (negb (_ || cap_sys_resource p)); [discriminate|].
  intros [= <-]. cbn [set_rlimits rlimits]. repeat split.
  intros r Hc Ha. rewrite !fn_lookup_insert_ne by congruence. reflexivity.
Qed.

(** C8: in a process the kernel lets lower its limits, [limit_resources]
    returns normally and leaves the CPU-time limit at soft = hard = 2
    seconds and the address-space limit at soft = hard = 512 * 1024 *
    1024 bytes (512 MiB). *)
Theorem limit_resources_sets_ceilings (p : proc) :
  kernel_permits p ->
  exists p',
    limit_resources p = (inr tt, p')
    /\ rlimits p' RLIMIT_CPU = (Rlim 2, Rlim 2)
    /\ rlimits p' RLIMIT_AS = (Rlim (512 * 1024 * 1024), Rlim (512 * 1024 * 1024))
    /\ 512 * 1024 * 1024 = 512 * 2 ^ 20.
Proof.
  intros Hk.
  assert (Hrun : exists p', limit_resources p = (inr tt, p')).
  { unfold limit_resources, bind, setrlimit, raise.
    assert (Hrefl : forall n, rlim_leb (Rlim n) (Rlim n) = true)
      by (intros n; apply Z.leb_refl).
    rewrite !Hrefl. cbn [negb].
    destruct Hk as [Hcap | [Hcpu Has]].
    - rewrite Hcap, !orb_true_r. cbn [negb set_rlimits cap_sys_resource].
      rewrite Hcap, !orb_true_r. cbn [negb]. eexists; reflexivity.
    - rewrite Hcpu. cbn [orb negb set_rlimits rlimits cap_sys_resource].
      rewrite fn_lookup_insert_ne by discriminate.
      rewrite Has. cbn [orb negb]. eexists; reflexivity. }
  destruct Hrun as [p' Hp']. exists p'.
  destruct (limit_resources_post p p' Hp') as [Hc [Ha _]].
  repeat split; assumption || reflexivity.
Qed.

Lemma limit_resources_sets_ceilings_witness :
  kernel_permits default_proc
  /\ exists p',
       limit_resources default_proc = (inr tt, p')
       /\ rlimits p' RLIMIT_CPU = (Rlim 2, Rlim 2)
       /\ rlimits p' RLIMIT_AS = (Rlim (512 * 1024 * 1024), Rlim (512 * 1024 * 1024))
       /\ 512 * 1024 * 1024 = 512 * 2 ^ 20.
Proof.
  split.
  - right. split; reflexivity.
  - apply limit_resources_sets_ceilings. right. split; reflexivity.
Defined.

(* ===================================================================== *)
(** * The leaderboard *)
(* ===================================================================== *)

Section LeaderboardFacts.

Lemma insert_by_score_sorted (x : entry) (l : list entry) :
  StronglySorted score_ge l -> StronglySorted score_ge (insert_by_score x l).
Proof.
  induction 1 as [|y l Hl IH Hy]; simpl.
  - repeat constructor.
  - destruct (Z.ltb_spec (e_score x) (e_score y)) as [Hlt|Hge].
    + constructor; [exact IH|].
      clear IH Hl. induction l as [|z l IHl]; simpl.
      * constructor; [unfold score_ge; lia | constructor].
      * inversion Hy as [|? ? Hz Hrest]; subst.
        destruct (e_score x <? e_score z);
          repeat constructor; auto; unfold score_ge; lia.
    + constructor; [constructor; assumption|].
      constructor; [unfold score_ge; lia|].
      eapply List.Forall_impl; [|exact Hy].
      unfold score_ge. intros z Hz. lia.
Qed.

Lemma sorted_by_score_desc_sorted (l : list entry) :
  StronglySorted score_ge (sorted_by_score_desc l).
Proof.
  induction l as [|x l IH]; simpl;
    [constructor | apply insert_by_score_sorted, IH].
Qed.

Lemma insert_by_score_perm (x : entry) (l : list entry) :
  Permutation (x :: l) (insert_by_score x l).
Proof.
  induction l as [|y l IH]; simpl; [reflexivity|].
  destruct (e_score x <? e_score y); [|reflexivity].
  rewrite perm_swap. now apply perm_skip.
Qed.

(** Sorting rearranges, it neither drops nor invents entries. *)
Lemma sorted_by_score_desc_perm (l : list entry) :
  Permutation l (sorted_by_score_desc l).
Proof.
  induction l as [|x l IH]; simpl; [reflexivity|].
  rewrite <- insert_by_score_perm. now apply perm_skip.
Qed.

Lemma insert_commute (x e : entry) (s : list entry) :
  insert_by_score x (insert_behind e s) = insert_behind e (insert_by_score x s).
Proof.
  induction s as [|y s IH]; simpl.
  - destruct (Z.ltb_spec (e_score x) (e_score e)),
             (Z.leb_spec (e_score e) (e_score x)); try lia; reflexivity.
  - destruct (Z.leb_spec (e_score e) (e_score y)) as [Hey|Hey];
    destruct (Z.ltb_spec (e_score x) (e_score y)) as [Hxy|Hxy]; simpl.
    + destruct (Z.ltb_spec (e_score x) (e_score y)); [|lia].
      destruct (Z.leb_spec (e_score e) (e_score y)); [|lia].
      now rewrite IH.
    + destruct (Z.ltb_spec (e_score x) (e_score y)); [lia|].
      destruct (Z.leb_spec (e_score e) (e_score x)); [|lia].
      simpl. destruct (Z.leb_spec (e_score e) (e_score y)); [|lia].
      reflexivity.
    + destruct (Z.ltb_spec (e_score x) (e_score e)); [|lia].
      simpl. destruct (Z.ltb_spec (e_score x) (e_score y)); [|lia].
      destruct (Z.leb_spec (e_score e) (e_score y)); [lia|].
      reflexivity.
    + destruct (Z.ltb_spec (e_score x) (e_score e)) as [Hxe|Hxe];
      destruct (Z.leb_spec (e_score e) (e_score x)); try lia; simpl.
      * destruct (Z.ltb_spec (e_score x) (e_score y)); [lia|]. reflexivity.
      * destruct (Z.leb_spec (e_score e) (e_score y)); [lia|]. reflexivity.
Qed.

(** Sorting after an append puts the new entry behind its equals. *)
Lemma sorted_append (l : list entry) (e : entry) :
  sorted_by_score_desc (l ++ [e]) = insert_behind e (sorted_by_score_desc l).
Proof.
  induction l as [|x l IH]; simpl; [reflexivity|].
  rewrite IH. apply insert_commute.
Qed.

Lemma outranking_perm (k : Z) (l l' : list entry) :
  Permutation l l' -> outranking k l = outranking k l'.
Proof.
  intros H. unfold outranking.
  induction H as [|x l l' H IH|x y l|l l' l'' H1 IH1 H2 IH2]; simpl.
  - reflexivity.
  - destruct (k <=? e_score x); simpl; lia.
  - destruct (k <=? e_score x), (k <=? e_score y); reflexivity.
  - lia.
Qed.

End LeaderboardFacts.

Section TopThree.

(** In a sorted list with at least [n] entries scoring no less than
    the new one, the new entry lands behind the first [n]. *)
Lemma insert_behind_beyond (e : entry) (n : nat) (s : list entry) :
  StronglySorted score_ge s ->
  (n <= outranking (e_score e) s)%nat ->
  insert_behind e s = firstn n s ++ insert_behind e (skipn n s).
Proof.
  intros Hs. revert n.
  induction Hs as [|y s Hs IH Hy]; intros n Hn.
  - destruct n; [reflexivity | unfold outranking in Hn; simpl in Hn; lia].
  - destruct n as [|n]; [reflexivity|].
    unfold outranking in Hn. simpl in Hn. simpl.
    destruct (Z.leb_spec (e_score e) (e_score y)) as [Hey|Hey].
    + simpl in Hn. f_equal. apply IH. unfold outranking. lia.
    + exfalso.
      assert (Hnone : List.filter (fun x => e_score e <=? e_score x) s = []).
      { clear - Hy Hey. induction Hy as [|z s Hz _ IHs]; simpl; [reflexivity|].
        unfold score_ge in Hz.
        destruct (Z.leb_spec (e_score e) (e_score z)); [lia | exact IHs]. }
      rewrite Hnone in Hn. simpl in Hn. lia.
Qed.

Lemma outranking_le_length (k : Z) (l : list entry) :
  (outranking k l <= length l)%nat.
Proof. unfold outranking. apply List.filter_length_le. Qed.

Lemma insert_behind_In (e : entry) (s : list entry) : In e (insert_behind e s).
Proof.
  induction s as [|y s IH]; simpl; [now left|].
  destruct (e_score e <=? e_score y); simpl; auto.
Qed.

(** With fewer than [n] such entries it lands among the first [n]. *)
Lemma insert_behind_within (e : entry) (n : nat) (s : list entry) :
  (outranking (e_score e) s < n)%nat ->
  In e (firstn n (insert_behind e s)).
Proof.
  revert n. induction s as [|y s IH]; intros n Hn.
  - destruct n; [lia | simpl; now left].
  - destruct n as [|n]; [lia|].
    unfold outranking in Hn. simpl in Hn |- *.
    destruct (e_score e <=? e_score y); simpl in Hn |- *.
    + right. apply IH. unfold outranking. lia.
    + now left.
Qed.

Lemma firstn_sorted (n : nat) (l : list entry) :
  StronglySorted score_ge l -> StronglySorted score_ge (firstn n l).
Proof.
  intros Hl. revert n. induction Hl as [|x l Hl IH Hx]; intros [|n]; simpl;
    try constructor.
  - apply IH.
  - apply Forall_take. exact Hx.
Qed.

End TopThree.

(** C9: after [update_leaderboard] the file holds at most 3 entries, in
    non-increasing order of score. When 3 or more of the entries stored
    before score at least as much as the new one, the new entry is not
    kept: the file holds the best 3 of the old ones. When fewer than 3
    do, it is kept. *)
Theorem update_leaderboard_keeps_top_three
    (h : env) (username code language : pystr) (score : Z) (runtime : Q)
    (memory : Z) (w : world) :
  let new_entry :=
    {| e_username := username; e_code := code; e_language := language;
       e_score := score; e_runtime := runtime; e_memory := memory;
       e_timestamp := utcnow_isoformat h |} in
  let stored :=
    leaderboard_file
      (world_after (update_leaderboard (E := exn) h username code language
                                       score runtime memory w)) in
  (length stored <= 3)%nat
  /\ StronglySorted score_ge stored
  /\ ((3 <= outranking score (leaderboard_file w))%nat ->
      stored = firstn 3 (sorted_by_score_desc (leaderboard_file w)))
  /\ ((outranking score (leaderboard_file w) < 3)%nat -> In new_entry stored).
Proof.
  intros new_entry stored.
  assert (Hst : stored = firstn 3 (sorted_by_score_desc (leaderboard_file w ++ [new_entry])))
    by reflexivity.
  pose proof (sorted_by_score_desc_sorted (leaderboard_file w)) as Hsorted.
  pose proof (sorted_by_score_desc_perm (leaderboard_file w)) as Hperm.
  rewrite Hst. repeat split.
  - apply List.firstn_le_length.
  - apply firstn_sorted, sorted_by_score_desc_sorted.
  - intros Hn. rewrite sorted_append.
    rewrite (outranking_perm _ _ _ Hperm) in Hn.
    rewrite (insert_behind_beyond new_entry 3 _ Hsorted Hn).
    pose proof (outranking_le_length score (sorted_by_score_desc (leaderboard_file w))) as Hlen.
    rewrite List.firstn_app, List.firstn_firstn.
    rewrite List.length_firstn.
    replace (3 - Nat.min 3 (length (sorted_by_score_desc (leaderboard_file w))))%nat
      with 0%nat by lia.
    simpl. apply app_nil_r.
  - intros Hn. rewrite sorted_append.
    rewrite (outranking_perm _ _ _ Hperm) in Hn.
    apply insert_behind_within. exact Hn.
Qed.

Lemma update_leaderboard_keeps_top_three_witness :
  let stored (score : Z) :=
    leaderboard_file
      (world_after (update_leaderboard (E := exn) (linux_host child_prints_4)
                      (py "dee") (py "print(2+2)") (py "python") score (1235 # 10000) 20
                      (set_leaderboard_file sample_leaderboard fresh_world))) in
  ((3 <= outranking 80 sample_leaderboard)%nat
   /\ stored 80 = firstn 3 (sorted_by_score_desc sample_leaderboard))
  /\ ((outranking 85 sample_leaderboard < 3)%nat
      /\ In {| e_username := py "dee"; e_code := py "print(2+2)";
               e_language := py "python"; e_score := 85;
               e_runtime := 1235 # 10000; e_memory := 20;
               e_timestamp := py "2024-01-01T00:00:00" |} (stored 85)).
Proof.
  intros stored. split; split.
  - vm_compute. lia.
  - apply (update_leaderboard_keeps_top_three (linux_host child_prints_4)
             (py "dee") (py "print(2+2)") (py "python") 80 (1235 # 10000) 20
             (set_leaderboard_file sample_leaderboard fresh_world)).
    vm_compute. lia.
  - vm_compute. lia.
  - apply (update_leaderboard_keeps_top_three (linux_host child_prints_4)
             (py "dee") (py "print(2+2)") (py "python") 85 (1235 # 10000) 20
             (set_leaderboard_file sample_leaderboard fresh_world)).
    vm_compute. lia.
Defined.

(* ===================================================================== *)
(** * The /analyze endpoint *)
(* ===================================================================== *)

Lemma is_empty_true (s : pystr) : is_empty s = true <-> s = [].
Proof. destruct s; simpl; split; congruence. Qed.

(** C10: when the code or the username is empty once stripped,
    [analyze_code] raises [HTTPException] with status 400 and leaves the
    world as it found it: no [subprocess.run] call was made and the
    leaderboard file is unchanged. *)
Theorem analyze_code_rejects_empty_input
    (str_lower : pystr -> pystr)
    (evaluate_comments evaluate_formatting
     evaluate_naming_conventions evaluate_complexity : pystr -> Z)
    (format_float : Q -> pystr) (format_int : Z -> pystr)
    (h : env) (snippet : CodeSnippet) (w : world) :
  strip (snippet_code snippet) = [] \/ strip (snippet_username snippet) = [] ->
  let r := analyze_code str_lower evaluate_comments evaluate_formatting
             evaluate_naming_conventions evaluate_complexity
             format_float format_int h snippet w in
  (exists detail, returned r = inl (HTTPException 400 detail))
  /\ world_after r = w
  /\ spawned (world_after r) = spawned w
  /\ leaderboard_file (world_after r) = leaderboard_file w.
Proof.
  intros Hempty r.
  assert (Hguard : is_empty (strip (snippet_code snippet))
                   || is_empty (strip (snippet_username snippet)) = true).
  { apply orb_true_iff. destruct Hempty as [H|H]; [left|right];
      apply is_empty_true; exact H. }
  assert (Hr : r = (inl (HTTPException 400
                           (py "Code snippet and username cannot be empty.")), w)).
  { subst r. unfold analyze_code. rewrite Hguard. reflexivity. }
  rewrite Hr. repeat split. eexists. reflexivity.
Qed.

Lemma analyze_code_rejects_empty_input_witness :
  let snippet := {| snippet_username := py "ada";
                    snippet_code := py "   " ++ LF;
                    snippet_language := py "python" |} in
  let w := set_leaderboard_file sample_leaderboard fresh_world in
  let r := analyze_code (fun s => s) sample_scorer sample_scorer sample_scorer
             sample_scorer sample_format_float sample_format_int
             (linux_host child_prints_4) snippet w in
  (strip (snippet_code snippet) = [] \/ strip (snippet_username snippet) = [])
  /\ (exists detail, returned r = inl (HTTPException 400 detail))
  /\ world_after r = w
  /\ spawned (world_after r) = spawned w
  /\ leaderboard_file (world_after r) = leaderboard_file w.
Proof.
  intros snippet w r. split.
  - left. vm_compute. reflexivity.
  - apply (analyze_code_rejects_empty_input (fun s => s) sample_scorer sample_scorer
             sample_scorer sample_scorer sample_format_float sample_format_int
             (linux_host child_prints_4) snippet w).
    left. vm_compute. reflexivity.
Defined.

(* ===================================================================== *)
(** * Further properties of the execution engine *)
(* ===================================================================== *)

(** X1: the if/elif chain of [execute_code_safely] chooses a command
    exactly for the keys of [LANGUAGE_COMMANDS]; after the membership
    test of line 124 its final [else] cannot be reached. *)
Theorem dispatch_agrees_with_registry (h : env) (code language : pystr) :
  registered h language <-> is_Some (run_arguments h code language).
Proof.
  split.
  - intros Hr. destruct (run_arguments_registered h code language Hr) as [args Ha].
    rewrite Ha. eexists. reflexivity.
  - intros [args Ha]. apply registered_cases. unfold run_arguments in Ha.
    repeat case_bool_decide; auto. discriminate.
Qed.

(** X2: a call for a registered language makes exactly one
    [subprocess.run] call, with a deadline of 2 seconds, whatever the
    child then does. *)
Theorem registered_request_spawns_once
    (h : env) (code language : pystr) (w : world) :
  registered h language ->
  exists args,
    spawned (world_after (execute_code_safely h code language w))
    = spawned w ++ [args]
    /\ timeout args = 2.
Proof.
  intros Hr. pose proof Hr as Hc. apply registered_cases in Hc.
  destruct (run_arguments_registered h code language Hr) as [args Ha].
  exists args. split; [exact (spawn_logged h code language w args Hr Ha)|].
  unfold run_arguments in Ha.
  destruct Hc as [ -> | [ -> | [ -> | -> ]]];
    cbn in Ha; injection Ha as <-; reflexivity.
Qed.

Lemma registered_request_spawns_once_witness :
  registered (linux_host child_hangs) (py "javascript")
  /\ exists args,
       spawned (world_after (execute_code_safely (linux_host child_hangs)
                               (py "for(;;){}") (py "javascript") fresh_world))
       = spawned fresh_world ++ [args]
       /\ timeout args = 2.
Proof.
  assert (Hr : registered (linux_host child_hangs) (py "javascript"))
    by (apply registered_cases; auto).
  split; [exact Hr|].
  exact (registered_request_spawns_once _ _ _ _ Hr).
Defined.

(** X3: on macOS and on Windows no branch installs the limiter: every
    child is spawned without a pre-exec step. *)
Theorem no_limiter_on_darwin_and_windows
    (h : env) (code language : pystr) (args : spawn) :
  platform_system h = py "Darwin" \/ platform_system h = py "Windows" ->
  run_arguments h code language = Some args ->
  preexec_fn args = None.
Proof.
  intros Hp Ha. unfold run_arguments in Ha.
  assert (Hg : bool_decide (platform_system h = py "Darwin")
               || bool_decide (platform_system h = py "Windows") = true).
  { apply orb_true_iff. destruct Hp as [Hp|Hp]; [left|right];
      apply bool_decide_eq_true_2; exact Hp. }
  rewrite Hg in Ha.
  repeat case_bool_decide; try discriminate; injection Ha as <-; reflexivity.
Qed.

Lemma no_limiter_on_darwin_and_windows_witness :
  (platform_system (darwin_host child_prints_4) = py "Darwin"
   \/ platform_system (darwin_host child_prints_4) = py "Windows")
  /\ match run_arguments (darwin_host child_prints_4) (py "print(2+2)") (py "python") with
     | Some args => preexec_fn args = None
     | None => False
     end.
Proof.
  split; [left; reflexivity|].
  destruct (run_arguments (darwin_host child_prints_4) (py "print(2+2)") (py "python"))
    as [args|] eqn:Ha; [|discriminate Ha].
  apply (no_limiter_on_darwin_and_windows (darwin_host child_prints_4)
           (py "print(2+2)") (py "python") args); [left; reflexivity | exact Ha].
Defined.

(** X4: for java and cpp the snippet is not handed to the child in any
    way: two calls that differ in the snippet only return the same
    outcome and leave the same world. *)
Theorem compiled_languages_ignore_snippet
    (h : env) (code1 code2 language : pystr) (w : world) :
  language = py "java" \/ language = py "cpp" ->
  execute_code_safely h code1 language w = execute_code_safely h code2 language w.
Proof.
  intros Hl.
  assert (Hr : registered h language)
    by (apply registered_cases; destruct Hl; auto).
  destruct Hl as [ -> | -> ].
  - rewrite (execute_registered h code1 _ w _ Hr eq_refl).
    rewrite (execute_registered h code2 _ w _ Hr eq_refl). reflexivity.
  - rewrite (execute_registered h code1 _ w _ Hr eq_refl).
    rewrite (execute_registered h code2 _ w _ Hr eq_refl). reflexivity.
Qed.

Lemma compiled_languages_ignore_snippet_witness :
  (py "java" = py "java" \/ py "java" = py "cpp")
  /\ execute_code_safely (linux_host child_prints_4) (py "class Main {}") (py "java") fresh_world
     = execute_code_safely (linux_host child_prints_4) (py "garbage") (py "java") fresh_world.
Proof.
  split; [left; reflexivity|].
  apply compiled_languages_ignore_snippet. left. reflexivity.
Defined.

Lemma execute_code_safely_frame (h : env) (code language : pystr) (w : world) :
  leaderboard_file (snd (execute_code_safely h code language w)) = leaderboard_file w
  /\ (spawned (snd (execute_code_safely h code language w)) = spawned w
      \/ exists args, spawned (snd (execute_code_safely h code language w))
                      = spawned w ++ [args]).
Proof.
  destruct (LANGUAGE_COMMANDS h !! language) as [cmd|] eqn:Hcmd.
  - assert (Hr : registered h language) by (eexists; exact Hcmd).
    destruct (run_arguments_registered h code language Hr) as [args Ha].
    split; [|right; exists args; exact (spawn_logged h code language w args Hr Ha)].
    rewrite (execute_registered h code language w args Hr Ha). cbn zeta.
    destruct (run_child h args) as [e|p].
    + unfold execute_handlers. destruct (exn_cls e), (tracing w); reflexivity.
    + destruct (tracing w); reflexivity.
  - unfold execute_code_safely. rewrite Hcmd. split; [reflexivity | left; reflexivity].
Qed.



(** X6: when the tracer is off at the start and the child runs to
    completion, the tracer is off again afterwards with its peak reset,
    and a successful outcome reports the peak of this call alone. *)
Theorem completed_run_measures_its_own_peak
    (h : env) (code language : pystr) (w : world)
    (args : spawn) (p : CompletedProcess) :
  registered h language ->
  tracing w = false ->
  run_arguments h code language = Some args ->
  run_child h args = inr p ->
  tracing (world_after (execute_code_safely h code language w)) = false
  /\ traced_peak (world_after (execute_code_safely h code language w)) = 0%N
  /\ (returncode p = 0 ->
      exists runtime output,
        returned (execute_code_safely h code language w)
        = inr (Measured runtime (Z.of_N (host_alloc_peak h) / 1024) output)).
Proof.
  intros Hr Ht Ha Hp.
  rewrite (execute_registered h code language w args Hr Ha). cbn zeta.
  rewrite Hp. unfold peak_seen. rewrite Ht.
  split; [reflexivity|]. split; [reflexivity|].
  intros Hrc. rewrite Hrc. cbn [Z.eqb negb returned fst].
  rewrite N.max_0_l. eexists; eexists; reflexivity.
Qed.

Lemma completed_run_measures_its_own_peak_witness :
  let h := quiet (linux_host child_prints_4) in
  let r := execute_code_safely h (py "print(2+2)") (py "python") fresh_world in
  registered h (py "python")
  /\ tracing fresh_world = false
  /\ tracing (world_after r) = false
  /\ traced_peak (world_after r) = 0%N
  /\ exists runtime output, returned r = inr (Measured runtime 1 output).
Proof.
  intros h r.
  assert (Hr : registered h (py "python")) by (apply registered_cases; auto).
  split; [exact Hr|]. split; [reflexivity|].
  destruct (completed_run_measures_its_own_peak h (py "print(2+2)") (py "python")
              fresh_world _ _ Hr eq_refl eq_refl eq_refl) as (Ht & Hp & Hm).
  split; [exact Ht|]. split; [exact Hp|]. exact (Hm eq_refl).
Defined.

(* ===================================================================== *)
(** * Further properties of the resource limiter *)
(* ===================================================================== *)

Lemma rlim_leb_refl (a : rlim) : rlim_leb a a = true.
Proof. destruct a; simpl; [reflexivity | apply Z.leb_refl]. Qed.

(** [limit_resources] unfolded into its two kernel checks. *)
Lemma limit_resources_cases (p : proc) :
  limit_resources p =
    if negb (rlim_leb (Rlim 2) (snd (rlimits p RLIMIT_CPU)) || cap_sys_resource p)
    then (inl (Exn OtherException (py "not allowed to raise maximum limit")), p)
    else
      let p1 := set_rlimits (<[RLIMIT_CPU := (Rlim 2, Rlim 2)]> (rlimits p)) p in
      if negb (rlim_leb (Rlim (512 * 1024 * 1024)) (snd (rlimits p RLIMIT_AS))
               || cap_sys_resource p)
      then (inl (Exn OtherException (py "not allowed to raise maximum limit")), p1)
      else (inr tt,
            set_rlimits (<[RLIMIT_AS := (Rlim (512 * 1024 * 1024),
                                         Rlim (512 * 1024 * 1024))]> (rlimits p1)) p1).
Proof.
  unfold limit_resources, bind, setrlimit, raise.
  rewrite !rlim_leb_refl. cbn [negb].
  destruct (negb (_ || cap_sys_resource p)); [reflexivity|].
  cbn [set_rlimits rlimits cap_sys_resource].
  rewrite fn_lookup_insert_ne by discriminate. reflexivity.
Qed.

(** X7: [limit_resources] returns normally exactly in the processes the
    kernel lets lower both limits; in every other process it raises. *)
Theorem limit_resources_succeeds_iff_permitted (p : proc) :
  (exists p', limit_resources p = (inr tt, p')) <-> kernel_permits p.
Proof.
  rewrite limit_resources_cases. unfold kernel_permits. cbn zeta.
  destruct (cap_sys_resource p);
    destruct (rlim_leb (Rlim 2) (snd (rlimits p RLIMIT_CPU)));
    destruct (rlim_leb (Rlim (512 * 1024 * 1024)) (snd (rlimits p RLIMIT_AS)));
    cbn [orb negb]; split;
    try (intros _; eexists; reflexivity);
    try (intros _; auto; fail);
    try (intros [p' H]; discriminate H);
    try (intros [H|[H1 H2]]; discriminate).
Qed.

(** X8: an unprivileged process whose inherited hard CPU limit is below
    2 seconds cannot run [limit_resources]: the first [setrlimit] raises
    and the limits stay as they were. *)
Theorem limit_resources_refused_leaves_limits
    (p : proc) (soft : rlim) (hard : Z) :
  cap_sys_resource p = false ->
  rlimits p RLIMIT_CPU = (soft, Rlim hard) ->
  hard < 2 ->
  limit_resources p
  = (inl (Exn OtherException (py "not allowed to raise maximum limit")), p).
Proof.
  intros Hcap Hcpu Hlt. rewrite limit_resources_cases, Hcap, Hcpu.
  cbn [snd rlim_leb]. destruct (Z.leb_spec 2 hard); [lia|]. reflexivity.
Qed.

Lemma limit_resources_refused_leaves_limits_witness :
  cap_sys_resource throttled_proc = false
  /\ rlimits throttled_proc RLIMIT_CPU = (Rlim 1, Rlim 1)
  /\ 1 < 2
  /\ limit_resources throttled_proc
     = (inl (Exn OtherException (py "not allowed to raise maximum limit")),
        throttled_proc).
Proof.
  split; [reflexivity|]. split; [reflexivity|]. split; [lia|].
  apply (limit_resources_refused_leaves_limits throttled_proc (Rlim 1) 1);
    [reflexivity | reflexivity | lia].
Defined.

(** X9: [limit_resources] is idempotent: where it went through once it
    goes through again, and the second run changes no limit. *)
Theorem limit_resources_idempotent (p p' : proc) :
  limit_resources p = (inr tt, p') ->
  exists p'',
    limit_resources p' = (inr tt, p'')
    /\ (forall r, rlimits p'' r = rlimits p' r)
    /\ cap_sys_resource p'' = cap_sys_resource p'.
Proof.
  intros H. destruct (limit_resources_post p p' H) as (Hc & Ha & _).
  rewrite (limit_resources_cases p'), Hc, Ha.
  cbn [snd]. rewrite !rlim_leb_refl. cbn [orb negb]. cbn zeta.
  eexists. split; [reflexivity|]. split; [|reflexivity].
  intros r. cbn [set_rlimits rlimits].
  destruct (decide (r = RLIMIT_AS)) as [ -> |Hna].
  - rewrite fn_lookup_insert. symmetry. exact Ha.
  - rewrite fn_lookup_insert_ne by congruence.
    destruct (decide (r = RLIMIT_CPU)) as [ -> |Hnc].
    + rewrite fn_lookup_insert. symmetry. exact Hc.
    + rewrite fn_lookup_insert_ne by congruence. reflexivity.
Qed.

Lemma limit_resources_idempotent_witness :
  exists p',
    limit_resources default_proc = (inr tt, p')
    /\ exists p'',
         limit_resources p' = (inr tt, p'')
         /\ (forall r, rlimits p'' r = rlimits p' r)
         /\ cap_sys_resource p'' = cap_sys_resource p'.
Proof.
  eexists. split; [reflexivity|].
  apply (limit_resources_idempotent default_proc). reflexivity.
Defined.

(* ===================================================================== *)
(** * Further properties of the leaderboard *)
(* ===================================================================== *)

Lemma stored_after_update
    (h : env) (username code language : pystr) (score : Z) (runtime : Q)
    (memory : Z) (w : world) :
  leaderboard_file
    (world_after (update_leaderboard (E := exn) h username code language
                                     score runtime memory w))
  = firstn 3 (sorted_by_score_desc
                (leaderboard_file w
                 ++ [ {| e_username := username; e_code := code;
                         e_language := language; e_score := score;
                         e_runtime := runtime; e_memory := memory;
                         e_timestamp := utcnow_isoformat h |} ])).
Proof. reflexivity. Qed.

(** Sorting a list that is in order already returns it as it is. *)
Lemma sorted_by_score_desc_fixpoint (l : list entry) :
  StronglySorted score_ge l -> sorted_by_score_desc l = l.
Proof.
  induction 1 as [|x l Hl IH Hx]; simpl; [reflexivity|].
  rewrite IH. destruct Hx as [|y l' Hy _]; simpl; [reflexivity|].
  unfold score_ge in Hy.
  destruct (Z.ltb_spec (e_score x) (e_score y)); [lia | reflexivity].
Qed.

(** X10: [update_leaderboard] stores [min(3, n + 1)] entries when the
    file held [n]. *)
Theorem update_leaderboard_length
    (h : env) (username code language : pystr) (score : Z) (runtime : Q)
    (memory : Z) (w : world) :
  length (leaderboard_file
            (world_after (update_leaderboard (E := exn) h username code language
                                             score runtime memory w)))
  = Nat.min 3 (length (leaderboard_file w) + 1).
Proof.
  rewrite stored_after_update, List.length_firstn.
  rewrite <- (Permutation_length (sorted_by_score_desc_perm _)).
  rewrite List.length_app. reflexivity.
Qed.

(** X11: the entries [update_leaderboard] keeps are the best ones: the
    old entries and the new one split into the stored list and a list
    of dropped entries, and no dropped entry scores more than a stored
    one. *)
Theorem update_leaderboard_keeps_the_best
    (h : env) (username code language : pystr) (score : Z) (runtime : Q)
    (memory : Z) (w : world) :
  let new_entry :=
    {| e_username := username; e_code := code; e_language := language;
       e_score := score; e_runtime := runtime; e_memory := memory;
       e_timestamp := utcnow_isoformat h |} in
  let stored :=
    leaderboard_file
      (world_after (update_leaderboard (E := exn) h username code language
                                       score runtime memory w)) in
  exists dropped,
    Permutation (leaderboard_file w ++ [new_entry]) (stored ++ dropped)
    /\ forall x y, In x stored -> In y dropped -> e_score y <= e_score x.
Proof.
  intros new_entry stored.
  set (all := sorted_by_score_desc (leaderboard_file w ++ [new_entry])).
  assert (Hst : stored = firstn 3 all) by reflexivity.
  exists (skipn 3 all). rewrite Hst, List.firstn_skipn. split.
  - apply sorted_by_score_desc_perm.
  - pose proof (sorted_by_score_desc_sorted (leaderboard_file w ++ [new_entry])) as Hs.
    fold all in Hs. clearbody all. clear - Hs.
    rewrite <- (List.firstn_skipn 3 all) in Hs.
    induction (firstn 3 all) as [|z front IH]; intros x y Hx Hy; [destruct Hx|].
    simpl in Hs. inversion Hs as [|? ? Hrest Hz]; subst.
    destruct Hx as [ <- | Hx].
    + assert (Hge : score_ge z y).
      { apply (proj1 (List.Forall_forall _ _) Hz). apply in_or_app. now right. }
      unfold score_ge in Hge. lia.
    + exact (IH Hrest x y Hx Hy).
Qed.

(** X12: while the file holds fewer than 3 entries nothing is lost: the
    stored list is the old entries and the new one, rearranged. *)
Theorem update_leaderboard_loses_nothing_below_three
    (h : env) (username code language : pystr) (score : Z) (runtime : Q)
    (memory : Z) (w : world) :
  (length (leaderboard_file w) < 3)%nat ->
  Permutation
    (leaderboard_file w
     ++ [ {| e_username := username; e_code := code; e_language := language;
             e_score := score; e_runtime := runtime; e_memory := memory;
             e_timestamp := utcnow_isoformat h |} ])
    (leaderboard_file
       (world_after (update_leaderboard (E := exn) h username code language
                                        score runtime memory w))).
Proof.
  intros Hlen. rewrite stored_after_update.
  rewrite List.firstn_all2.
  - apply sorted_by_score_desc_perm.
  - rewrite <- (Permutation_length (sorted_by_score_desc_perm _)).
    rewrite List.length_app. simpl. lia.
Qed.

Lemma update_leaderboard_loses_nothing_below_three_witness :
  let w := set_leaderboard_file [sample_entry "ada" 90; sample_entry "bob" 80] fresh_world in
  (length (leaderboard_file w) < 3)%nat
  /\ Permutation
       (leaderboard_file w
        ++ [ {| e_username := py "dee"; e_code := py "pass"; e_language := py "python";
                e_score := 85; e_runtime := 1 # 10; e_memory := 20;
                e_timestamp := utcnow_isoformat (linux_host child_prints_4) |} ])
       (leaderboard_file
          (world_after (update_leaderboard (E := exn) (linux_host child_prints_4)
                          (py "dee") (py "pass") (py "python") 85 (1 # 10) 20 w))).
Proof.
  intros w. split; [simpl; lia|].
  apply (update_leaderboard_loses_nothing_below_three (linux_host child_prints_4)).
  simpl. lia.
Defined.

(** X13: on a file that is in order already, [update_leaderboard] moves
    no old entry: it puts the new entry behind every entry that scores
    at least as much and cuts the list after the third. *)
Theorem update_leaderboard_on_sorted_file
    (h : env) (username code language : pystr) (score : Z) (runtime : Q)
    (memory : Z) (w : world) :
  StronglySorted score_ge (leaderboard_file w) ->
  leaderboard_file
    (world_after (update_leaderboard (E := exn) h username code language
                                     score runtime memory w))
  = firstn 3 (insert_behind
                {| e_username := username; e_code := code; e_language := language;
                   e_score := score; e_runtime := runtime; e_memory := memory;
                   e_timestamp := utcnow_isoformat h |}
                (leaderboard_file w)).
Proof.
  intros Hs. rewrite stored_after_update, sorted_append.
  rewrite (sorted_by_score_desc_fixpoint _ Hs). reflexivity.
Qed.

Lemma sample_leaderboard_sorted : StronglySorted score_ge sample_leaderboard.
Proof.
  unfold sample_leaderboard.
  repeat (constructor; [|repeat (constructor; [unfold score_ge; simpl; lia|]);
                          try constructor]).
  constructor.
Qed.

Lemma update_leaderboard_on_sorted_file_witness :
  let w := set_leaderboard_file sample_leaderboard fresh_world in
  StronglySorted score_ge (leaderboard_file w)
  /\ leaderboard_file
       (world_after (update_leaderboard (E := exn) (linux_host child_prints_4)
                       (py "dee") (py "pass") (py "python") 85 (1 # 10) 20 w))
     = [sample_entry "ada" 90;
        {| e_username := py "dee"; e_code := py "pass"; e_language := py "python";
           e_score := 85; e_runtime := 1 # 10; e_memory := 20;
           e_timestamp := py "2024-01-01T00:00:00" |};
        sample_entry "bob" 80].
Proof.
  intros w. split; [exact sample_leaderboard_sorted|].
  apply (update_leaderboard_on_sorted_file (linux_host child_prints_4)
           (py "dee") (py "pass") (py "python") 85 (1 # 10) 20 w).
  exact sample_leaderboard_sorted.
Defined.

(* ===================================================================== *)
(** * Properties of the clean-up task *)
(* ===================================================================== *)

Section CleanupFacts.

Variable fromisoformat : pystr -> exn + datetime.

Lemma comparable_dec (l : list entry) :
  {Forall (comparable fromisoformat) l} + {~ Forall (comparable fromisoformat) l}.
Proof.
  apply List.Forall_dec. intros e. unfold comparable.
  destruct (fromisoformat (e_timestamp e)) as [err|[t|t]];
    [right; intros [? ?]; discriminate | left; eexists; reflexivity
    | right; intros [? ?]; discriminate].
Qed.

Lemma keep_newer_inr (c : Z) (l kept : list entry) :
  keep_newer fromisoformat c l = inr kept ->
  kept = List.filter (fresh_at fromisoformat c) l /\ Forall (comparable fromisoformat) l.
Proof.
  revert kept. induction l as [|e l IH]; simpl; intros kept H.
  - injection H as <-. split; [reflexivity | constructor].
  - unfold newer_than, fresh_at in *.
    destruct (fromisoformat (e_timestamp e)) as [err|[t|t]] eqn:Hts;
      try discriminate.
    destruct (keep_newer fromisoformat c l) as [err|kept'] eqn:Hk;
      [discriminate|].
    destruct (IH kept' eq_refl) as [-> Hall]. injection H as <-.
    split; [reflexivity|]. constructor; [exists t; exact Hts | exact Hall].
Qed.

Lemma keep_newer_comparable (c : Z) (l : list entry) :
  Forall (comparable fromisoformat) l ->
  keep_newer fromisoformat c l = inr (List.filter (fresh_at fromisoformat c) l).
Proof.
  induction 1 as [|e l [t Ht] _ IH]; simpl; [reflexivity|].
  unfold newer_than, fresh_at. rewrite Ht, IH. reflexivity.
Qed.

Lemma keep_newer_inl (c : Z) (l : list entry) :
  ~ Forall (comparable fromisoformat) l -> exists err, keep_newer fromisoformat c l = inl err.
Proof.
  intros Hn. destruct (keep_newer fromisoformat c l) as [err|kept] eqn:Hk.
  - exists err. reflexivity.
  - exfalso. apply Hn. exact (proj2 (keep_newer_inr c l kept Hk)).
Qed.

Lemma filter_same_length {A} (f : A -> bool) (l : list A) :
  length (List.filter f l) = length l -> List.filter f l = l.
Proof.
  induction l as [|x l IH]; simpl; [reflexivity|].
  pose proof (List.filter_length_le f l) as Hle.
  destruct (f x); simpl; intros H; [f_equal; apply IH; lia | lia].
Qed.

Lemma filter_sorted (f : entry -> bool) (l : list entry) :
  StronglySorted score_ge l -> StronglySorted score_ge (List.filter f l).
Proof.
  induction 1 as [|x l Hl IH Hx]; simpl; [constructor|].
  destruct (f x); [|exact IH].
  constructor; [exact IH|].
  apply List.Forall_forall. intros y Hy. apply List.filter_In in Hy.
  exact (proj1 (List.Forall_forall _ _) Hx y (proj1 Hy)).
Qed.

(** What the file holds after a round, by whether the timestamps can
    all be read. *)
Lemma cleanup_round_cases (utcnow : Z) (w : world) :
  let cutoff := utcnow - timedelta_days EXPIRATION_DAYS in
  (Forall (comparable fromisoformat) (leaderboard_file w) ->
   exists printed,
     cleanup_round fromisoformat utcnow w
     = (inr printed,
        set_leaderboard_file
          (List.filter (fresh_at fromisoformat cutoff) (leaderboard_file w)) w)
     \/ (cleanup_round fromisoformat utcnow w = (inr printed, w)
         /\ List.filter (fresh_at fromisoformat cutoff) (leaderboard_file w) = leaderboard_file w))
  /\ (~ Forall (comparable fromisoformat) (leaderboard_file w) ->
      exists err, cleanup_round fromisoformat utcnow w = (inl err, w)).
Proof.
  intros cutoff. unfold cleanup_round, bind, load_leaderboard. cbn zeta. fold cutoff.
  split.
  - intros Hall. rewrite (keep_newer_comparable cutoff _ Hall).
    destruct (Nat.eqb_spec (length (List.filter (fresh_at fromisoformat cutoff) (leaderboard_file w)))
                           (length (leaderboard_file w))) as [Heq|Hne]; cbn [negb].
    + exists None. right. split; [reflexivity|]. exact (filter_same_length _ _ Heq).
    + eexists. left. reflexivity.
  - intros Hn. destruct (keep_newer_inl cutoff _ Hn) as [err ->].
    exists err. reflexivity.
Qed.

End CleanupFacts.

(** X14: a clean-up round that ends normally leaves in the file exactly
    the entries whose timestamp is later than seven days before now, in
    their old order, and every timestamp in the file could be read. *)
Theorem cleanup_round_keeps_the_fresh_entries
    (fromisoformat : pystr -> exn + datetime) (utcnow : Z)
    (w w' : world) (printed : option nat) :
  cleanup_round fromisoformat utcnow w = (inr printed, w') ->
  leaderboard_file w'
  = List.filter
      (fresh_at fromisoformat (utcnow - timedelta_days EXPIRATION_DAYS))
      (leaderboard_file w)
  /\ Forall (comparable fromisoformat) (leaderboard_file w)
  /\ timedelta_days EXPIRATION_DAYS = 604800000000.
Proof.
  intros H.
  destruct (cleanup_round_cases fromisoformat utcnow w) as [Hok Hbad].
  cbn zeta in Hok, Hbad.
  assert (Hall : Forall (comparable fromisoformat) (leaderboard_file w)).
  { destruct (comparable_dec fromisoformat (leaderboard_file w)) as [Hall|Hn];
      [exact Hall|].
    destruct (Hbad Hn) as [err Herr]. rewrite Herr in H. discriminate. }
  split; [|split; [exact Hall | reflexivity]].
  destruct (Hok Hall) as [p [Hp | [Hp Hsame]]]; rewrite Hp in H;
    injection H as _ <-; [reflexivity | symmetry; exact Hsame].
Qed.

Lemma cleanup_round_keeps_the_fresh_entries_witness :
  let w := set_leaderboard_file (sample_leaderboard ++ [fresh_entry]) fresh_world in
  let now := timedelta_days 12 in
  cleanup_round sample_fromisoformat now w
  = (inr (Some 3%nat), set_leaderboard_file [fresh_entry] fresh_world)
  /\ leaderboard_file (set_leaderboard_file [fresh_entry] fresh_world)
     = List.filter (fresh_at sample_fromisoformat (now - timedelta_days EXPIRATION_DAYS))
         (leaderboard_file w).
Proof.
  intros w now.
  assert (H : cleanup_round sample_fromisoformat now w
              = (inr (Some 3%nat), set_leaderboard_file [fresh_entry] fresh_world))
    by (vm_compute; reflexivity).
  split; [exact H|].
  exact (proj1 (cleanup_round_keeps_the_fresh_entries _ _ _ _ _ H)).
Defined.

(** X15: a clean-up round that meets a timestamp it cannot read, or one
    with a UTC offset, raises and leaves the file as it was: nothing is
    removed, however old the other entries are. *)
Theorem cleanup_round_stops_at_unreadable_timestamp
    (fromisoformat : pystr -> exn + datetime) (utcnow : Z) (w : world) (e : entry) :
  In e (leaderboard_file w) ->
  ~ comparable fromisoformat e ->
  exists err, cleanup_round fromisoformat utcnow w = (inl err, w).
Proof.
  intros Hin Hbad.
  apply (proj2 (cleanup_round_cases fromisoformat utcnow w)).
  intros Hall. apply Hbad.
  exact (proj1 (List.Forall_forall _ _) Hall e Hin).
Qed.

Lemma cleanup_round_stops_at_unreadable_timestamp_witness :
  let w := set_leaderboard_file (sample_leaderboard ++ [broken_entry]) fresh_world in
  In broken_entry (leaderboard_file w)
  /\ ~ comparable sample_fromisoformat broken_entry
  /\ exists err, cleanup_round sample_fromisoformat (timedelta_days 12) w = (inl err, w).
Proof.
  intros w.
  assert (Hin : In broken_entry (leaderboard_file w))
    by (simpl; right; right; right; left; reflexivity).
  assert (Hbad : ~ comparable sample_fromisoformat broken_entry)
    by (intros [t Ht]; vm_compute in Ht; discriminate).
  split; [exact Hin|]. split; [exact Hbad|].
  exact (cleanup_round_stops_at_unreadable_timestamp _ _ w broken_entry Hin Hbad).
Defined.

(** X16: clean-up keeps the shape [update_leaderboard] gives the file:
    after a round the file is no longer than before and, if it was in
    non-increasing order of score, it still is. *)
Theorem cleanup_round_keeps_order_and_bound
    (fromisoformat : pystr -> exn + datetime) (utcnow : Z) (w : world) :
  let w' := world_after (cleanup_round fromisoformat utcnow w) in
  (length (leaderboard_file w') <= length (leaderboard_file w))%nat
  /\ (StronglySorted score_ge (leaderboard_file w) ->
      StronglySorted score_ge (leaderboard_file w')).
Proof.
  intros w'. subst w'.
  destruct (cleanup_round_cases fromisoformat utcnow w) as [Hok Hbad].
  cbn zeta in Hok, Hbad.
  destruct (comparable_dec fromisoformat (leaderboard_file w)) as [Hall|Hn].
  - destruct (Hok Hall) as [p [Hp | [Hp _]]]; rewrite Hp; cbn [world_after snd].
    + cbn [set_leaderboard_file leaderboard_file]. split.
      * apply List.filter_length_le.
      * apply filter_sorted.
    + split; [lia | auto].
  - destruct (Hbad Hn) as [err Herr]. rewrite Herr. cbn [world_after snd].
    split; [lia | auto].
Qed.

(* ===================================================================== *)
(** * Further properties of the /analyze endpoint *)
(* ===================================================================== *)

Section AnalyzeFacts.

Variable str_lower : pystr -> pystr.
Variables score_comments score_formatting score_naming score_complexity
  : pystr -> Z.
Variable format_float : Q -> pystr.
Variable format_int : Z -> pystr.

#[local] Abbreviation analyze :=
  (analyze_code str_lower score_comments score_formatting score_naming
                score_complexity format_float format_int).
#[local] Abbreviation scores :=
  (score_all score_comments score_formatting score_naming score_complexity).

(** [analyze_code] past its guard, by what [execute_code_safely] gave. *)
Lemma analyze_code_past_guard (h : env) (snippet : CodeSnippet) (w : world) :
  strip (snippet_code snippet) <> [] ->
  strip (snippet_username snippet) <> [] ->
  let code := strip (snippet_code snippet) in
  let language := str_lower (snippet_language snippet) in
  let username := strip (snippet_username snippet) in
  analyze h snippet w =
    match execute_code_safely h code language w with
    | (inl e, w') => (inl (Unhandled e), w')
    | (inr (Error error), w') => (inr (ErrorResponse error), w')
    | (inr (Measured runtime memory output), w') =>
        (inr (Analysis username (mean_score (scores code)) (scores code)
                       (generate_suggestions (scores code))
                       (format_float runtime ++ py " seconds")
                       (format_int memory ++ py " KB") output),
         set_leaderboard_file
           (firstn 3 (sorted_by_score_desc
                        (leaderboard_file w'
                         ++ [ {| e_username := username; e_code := code;
                                 e_language := language;
                                 e_score := mean_score (scores code);
                                 e_runtime := runtime; e_memory := memory;
                                 e_timestamp := utcnow_isoformat h |} ])))
           w')
    end.
Proof.
  intros Hc Hu code language username.
  unfold analyze_code, score_all, mean_score. fold code language username.
  destruct code as [|c0 code'] eqn:Ecode; [contradiction|].
  destruct username as [|u0 username'] eqn:Euser; [contradiction|].
  cbn [is_empty orb]. unfold bind, lift_exn.
  destruct (execute_code_safely h (c0 :: code') language w) as [[e|[error|rt mem out]] w'];
    reflexivity.
Qed.



(** X19: whatever the request, [analyze_code] makes at most one
    [subprocess.run] call. *)
Theorem analyze_code_spawns_at_most_once
    (h : env) (snippet : CodeSnippet) (w : world) :
  spawned (world_after (analyze h snippet w)) = spawned w
  \/ exists args, spawned (world_after (analyze h snippet w)) = spawned w ++ [args].
Proof.
  destruct (strip (snippet_code snippet)) as [|c0 code'] eqn:Ecode.
  - left. unfold analyze_code. rewrite Ecode. reflexivity.
  - destruct (strip (snippet_username snippet)) as [|u0 user'] eqn:Euser.
    + left. unfold analyze_code. rewrite Ecode, Euser. reflexivity.
    + rewrite (analyze_code_past_guard h snippet w)
        by (rewrite ?Ecode, ?Euser; discriminate).
      cbn zeta.
      pose proof (proj2 (execute_code_safely_frame h (strip (snippet_code snippet))
                    (str_lower (snippet_language snippet)) w)) as Hsp.
      destruct (execute_code_safely h _ _ w) as [[e|[msg|rt mem out]] w'];
        cbn [snd world_after set_leaderboard_file spawned] in *; exact Hsp.
Qed.



End AnalyzeFacts.





(* ===================================================================== *)
(** * Properties of the scorers *)
(* ===================================================================== *)

(** X22: [generate_suggestions] stays silent exactly when the comments
    score is at least 50 and the formatting score at least 70; the
    naming and complexity scores never cause a suggestion, and there
    are never more than two. *)
Theorem generate_suggestions_silent_iff (results : breakdown) :
  (generate_suggestions results = []
   <-> 50 <= comments_score results /\ 70 <= formatting_score results)
  /\ (length (generate_suggestions results) <= 2)%nat
  /\ forall naming complexity,
       generate_suggestions
         {| comments_score := comments_score results;
            formatting_score := formatting_score results;
            naming_score := naming; complexity_score := complexity |}
       = generate_suggestions results.
Proof.
  unfold generate_suggestions. cbn [comments_score formatting_score].
  split; [|split; [|reflexivity]].
  - destruct (Z.ltb_spec (comments_score results) 50);
      destruct (Z.ltb_spec (formatting_score results) 70); cbn [app];
      split; try discriminate; try (intros _; try reflexivity; lia);
      intros [? ?]; lia.
  - destruct (comments_score results <? 50), (formatting_score results <? 70);
      simpl; lia.
Qed.

Section SplitFacts.

Lemma splitlines_from_no_break (line s : pystr) :
  Forall (fun c => is_linebreak c = false) line ->
  Forall (Forall (fun c => is_linebreak c = false)) (splitlines_from line s).
Proof.
  revert line. induction s as [s IH] using (induction_ltof1 _ (@length char)).
  unfold ltof in IH. intros line Hline. destruct s as [|c s']; simpl.
  - destruct line; constructor; [|constructor].
    apply List.Forall_rev. exact Hline.
  - destruct (is_linebreak c) eqn:Hc.
    + constructor; [apply List.Forall_rev; exact Hline|].
      destruct s' as [|d s'']; [constructor|].
      destruct ((c =? 13)%N && (d =? 10)%N);
        apply IH; simpl; try lia; constructor.
    + apply IH; [simpl; lia|]. constructor; assumption.
Qed.

(** No line [splitlines] returns holds a line boundary. *)
Lemma splitlines_no_break (s : pystr) :
  Forall (Forall (fun c => is_linebreak c = false)) (splitlines s).
Proof. apply splitlines_from_no_break. constructor. Qed.

Lemma count_lines_nonneg (test : pystr -> bool) (lines : list pystr) :
  0 <= count_lines test lines.
Proof. unfold count_lines. lia. Qed.

Lemma count_lines_zero (test : pystr -> bool) (lines : list pystr) :
  count_lines test lines = 0 <-> Forall (fun line => test line = false) lines.
Proof.
  unfold count_lines. induction lines as [|l lines IH]; simpl.
  - split; [constructor | reflexivity].
  - destruct (test l) eqn:Ht; simpl.
    + split; [lia|]. intros H. inversion H; congruence.
    + rewrite IH. split; [constructor; assumption | intros H; now inversion H].
Qed.

Lemma fold_max_spec (l : list Z) (x : Z) :
  x <= fold_left Z.max l x
  /\ Forall (fun y => y <= fold_left Z.max l x) l
  /\ (fold_left Z.max l x = x \/ In (fold_left Z.max l x) l).
Proof.
  revert x. induction l as [|y l IH]; intros x; simpl.
  - split; [lia|]. split; [constructor | now left].
  - destruct (IH (Z.max x y)) as (H1 & H2 & H3). split; [lia|]. split.
    + constructor; [lia | exact H2].
    + destruct H3 as [H3|H3]; [|right; right; exact H3].
      rewrite H3. destruct (Z.max_spec x y) as [[_ ->]|[_ ->]]; auto.
Qed.

(** [max] of a list that is not empty is one of its members and no
    member exceeds it. *)
Lemma max_default_spec (l : list Z) (d : Z) :
  l <> [] ->
  In (max_default l d) l /\ Forall (fun y => y <= max_default l d) l.
Proof.
  destruct l as [|x l]; [contradiction|]. intros _. simpl.
  destruct (fold_max_spec l x) as (H1 & H2 & H3). split.
  - destruct H3 as [->|H3]; [now left | now right].
  - constructor; assumption.
Qed.

End SplitFacts.

(** X23: [evaluate_formatting] returns a score from 0 to 100, and 100
    exactly when no line is longer than 80 characters and no line that
    starts with a space has a length that is not a multiple of 4. *)
Theorem evaluate_formatting_range (code : pystr) :
  0 <= evaluate_formatting code <= 100
  /\ (evaluate_formatting code = 100
      <-> Forall (fun line => is_long line = false
                              /\ is_misindented line = false)
                 (splitlines code)).
Proof.
  unfold evaluate_formatting. cbn zeta.
  pose proof (count_lines_nonneg is_long (splitlines code)) as Hl.
  pose proof (count_lines_nonneg is_misindented (splitlines code)) as Hm.
  split; [lia|]. split.
  - intros H.
    assert (Hl0 : count_lines is_long (splitlines code) = 0) by lia.
    assert (Hm0 : count_lines is_misindented (splitlines code) = 0) by lia.
    apply count_lines_zero in Hl0. apply count_lines_zero in Hm0.
    apply List.Forall_forall. intros line Hin. split.
    + exact (proj1 (List.Forall_forall _ _) Hl0 line Hin).
    + exact (proj1 (List.Forall_forall _ _) Hm0 line Hin).
  - intros H.
    assert (Hl0 : count_lines is_long (splitlines code) = 0).
    { apply count_lines_zero. eapply List.Forall_impl; [|exact H].
      intros line [? _]. assumption. }
    assert (Hm0 : count_lines is_misindented (splitlines code) = 0).
    { apply count_lines_zero. eapply List.Forall_impl; [|exact H].
      intros line [_ ?]. assumption. }
    lia.
Qed.

(** X24: [evaluate_complexity] is never negative, but it is not capped
    at 100: it is at most 100 as soon as one line opens at least as
    many braces as it closes (or the code has no line at all), and it
    is 110 or more when the code has lines and each of them closes
    more braces than it opens. *)
Theorem evaluate_complexity_range (code : pystr) :
  0 <= evaluate_complexity code
  /\ (splitlines code = [] -> evaluate_complexity code = 100)
  /\ (Exists (fun line => 0 <= brace_balance line) (splitlines code) ->
      evaluate_complexity code <= 100)
  /\ (splitlines code <> [] ->
      Forall (fun line => brace_balance line < 0) (splitlines code) ->
      110 <= evaluate_complexity code).
Proof.
  unfold evaluate_complexity. cbn zeta.
  split; [lia|]. split; [intros ->; reflexivity|]. split.
  - intros Hex. apply List.Exists_exists in Hex. destruct Hex as (line & Hin & Hb).
    assert (Hne : List.map brace_balance (splitlines code) <> [])
      by (destruct (splitlines code); [destruct Hin | discriminate]).
    destruct (max_default_spec _ 0 Hne) as [_ Hmax].
    pose proof (proj1 (List.Forall_forall _ _) Hmax (brace_balance line)
                  (List.in_map _ _ _ Hin)) as Hle.
    cbv beta in Hle. lia.
  - intros Hne Hall.
    assert (Hne' : List.map brace_balance (splitlines code) <> [])
      by (destruct (splitlines code); [contradiction | discriminate]).
    destruct (max_default_spec _ 0 Hne') as [Hin _].
    apply List.in_map_iff in Hin. destruct Hin as (line & Heq & Hin).
    pose proof (proj1 (List.Forall_forall _ _) Hall line Hin) as Hlt.
    cbv beta in Hlt. lia.
Qed.

Lemma evaluate_complexity_range_witness :
  (Exists (fun line => 0 <= brace_balance line) (splitlines (py "if (x) {"))
   /\ evaluate_complexity (py "if (x) {") <= 100)
  /\ (splitlines (py "}}") <> []
      /\ Forall (fun line => brace_balance line < 0) (splitlines (py "}}"))
      /\ 110 <= evaluate_complexity (py "}}")).
Proof.
  assert (H1 : Exists (fun line => 0 <= brace_balance line) (splitlines (py "if (x) {")))
    by (vm_compute; constructor; discriminate).
  assert (H2 : splitlines (py "}}") <> []) by (vm_compute; discriminate).
  assert (H3 : Forall (fun line => brace_balance line < 0) (splitlines (py "}}")))
    by (vm_compute; repeat constructor).
  split; split; try assumption.
  - exact (proj1 (proj2 (proj2 (evaluate_complexity_range (py "if (x) {")))) H1).
  - split; [exact H3|].
    exact (proj2 (proj2 (proj2 (evaluate_complexity_range (py "}}")))) H2 H3).
Defined.

(** X25: the complexity score looks at single lines only: when the code
    has lines, the score is [max(0, 100 - 10 * b)] for the balance [b]
    of one of its lines, and no line has a greater balance. *)
Theorem evaluate_complexity_worst_line (code : pystr) :
  splitlines code <> [] ->
  exists line,
    In line (splitlines code)
    /\ evaluate_complexity code = Z.max 0 (100 - brace_balance line * 10)
    /\ Forall (fun other => brace_balance other <= brace_balance line)
              (splitlines code).
Proof.
  intros Hne. unfold evaluate_complexity. cbn zeta.
  assert (Hne' : List.map brace_balance (splitlines code) <> [])
    by (destruct (splitlines code); [contradiction | discriminate]).
  destruct (max_default_spec _ 0 Hne') as [Hin Hmax].
  apply List.in_map_iff in Hin. destruct Hin as (line & Heq & Hin).
  exists line. split; [exact Hin|]. split; [rewrite Heq; reflexivity|].
  rewrite Heq. apply List.Forall_forall. intros other Ho.
  exact (proj1 (List.Forall_forall _ _) Hmax _ (List.in_map _ _ _ Ho)).
Qed.

Lemma evaluate_complexity_worst_line_witness :
  splitlines (py "a {{{" ++ LF ++ py "}") <> []
  /\ exists line,
       In line (splitlines (py "a {{{" ++ LF ++ py "}"))
       /\ evaluate_complexity (py "a {{{" ++ LF ++ py "}")
          = Z.max 0 (100 - brace_balance line * 10)
       /\ Forall (fun other => brace_balance other <= brace_balance line)
                 (splitlines (py "a {{{" ++ LF ++ py "}")).
Proof.
  assert (H : splitlines (py "a {{{" ++ LF ++ py "}") <> [])
    by (vm_compute; discriminate).
  split; [exact H|]. exact (evaluate_complexity_worst_line _ H).
Defined.

(* ===================================================================== *)
(** * Properties of the optimisation endpoint *)
(* ===================================================================== *)

Section ContainsFacts.

Lemma starts_with_spec (needle hay : pystr) :
  starts_with needle hay = true <-> exists rest, hay = needle ++ rest.
Proof.
  revert hay. induction needle as [|a needle IH]; intros hay; simpl.
  - split; [intros _; exists hay; reflexivity | reflexivity].
  - destruct hay as [|b hay]; simpl.
    + split; [discriminate | intros [rest H]; discriminate].
    + rewrite andb_true_iff, N.eqb_eq, IH. split.
      * intros [-> [rest ->]]. exists rest. reflexivity.
      * intros [rest H]. injection H as -> ->. split; [reflexivity | eauto].
Qed.

Lemma contains_spec (needle hay : pystr) :
  contains needle hay = true <-> occurs_in needle hay.
Proof.
  unfold occurs_in. induction hay as [|b hay IH].
  - simpl. rewrite orb_false_r, starts_with_spec. split.
    + intros [rest H]. exists [], rest. exact H.
    + intros (before & after & H). destruct before; [|discriminate].
      exists after. exact H.
  - cbn [contains]. rewrite orb_true_iff, starts_with_spec, IH. split.
    + intros [[rest H]|(before & after & H)].
      * exists [], rest. exact H.
      * exists (b :: before), after. rewrite H. reflexivity.
    + intros (before & after & H). destruct before as [|c before].
      * left. exists after. exact H.
      * right. injection H as -> H. exists before, after. exact H.
Qed.

Lemma contains_after_prefix (needle before after : pystr) :
  contains needle (before ++ needle ++ after) = true.
Proof. apply contains_spec. exists before, after. reflexivity. Qed.

End ContainsFacts.

(** What [optimize_code_with_deepseek] gives once the settings are in
    place: one request, and a result read off the answer. *)
Lemma deepseek_configured (cfg : api_config) (net : api_host)
    (code language : pystr) (log : list http_request) :
  configured cfg ->
  optimize_code_with_deepseek cfg net code language log
  = try_except (deepseek_body net (deepseek_request cfg code language))
               deepseek_handlers log.
Proof.
  intros (Hu & Hk & Ht). unfold optimize_code_with_deepseek.
  rewrite Hu, Hk, Ht. reflexivity.
Qed.

(** Every text the function returns is an error text with the word
    ["Error"] in it, or a stripped text that is not empty. *)
Lemma deepseek_result_shape (cfg : api_config) (net : api_host)
    (code language : pystr) (log : list http_request) :
  configured cfg ->
  exists r,
    optimize_code_with_deepseek cfg net code language log
    = (r, log ++ [deepseek_request cfg code language])
    /\ match r with
       | inl e => exists kind, e = Uncaught kind
       | inr text =>
           contains (py "Error") text = true
           \/ (text <> [] /\ exists raw, text = strip raw)
       end.
Proof.
  intros Hcfg. rewrite (deepseek_configured cfg net code language log Hcfg).
  set (rq := deepseek_request cfg code language).
  assert (Hfix : forall msg, In msg [MSG_NO_VALID_RESPONSE; MSG_CONNECT; MSG_API_TIMEOUT] ->
                             contains (py "Error") msg = true).
  { intros msg [<-|[<-|[<-|[]]]]; vm_compute; reflexivity. }
  assert (Hhandled : forall e,
            exists r, deepseek_handlers e (log ++ [rq]) = (r, log ++ [rq])
                      /\ match r with
                         | inl e' => exists kind, e' = Uncaught kind
                         | inr text => contains (py "Error") text = true
                                       \/ (text <> [] /\ exists raw, text = strip raw)
                         end).
  { intros [[| | |] text|kind]; eexists; (split; [reflexivity|]); cbn beta iota.
    - left. exact (contains_after_prefix (py "Error") (py "HTTP ") (py ": " ++ text)).
    - left. apply Hfix. simpl. auto.
    - left. apply Hfix. simpl. auto.
    - left. exact (contains_after_prefix (py "Error") []
                     (py " calling DeepSeek API: " ++ text)).
    - eexists. reflexivity. }
  assert (Hdone : forall o : option pystr,
            exists text,
              (match o with
               | Some (c :: s) => ret (c :: s)
               | _ => ret MSG_NO_VALID_RESPONSE
               end : M (list http_request) api_exn pystr) (log ++ [rq])
              = (inr text, log ++ [rq])
              /\ (contains (py "Error") text = true
                  \/ (text <> [] /\ o = Some text))).
  { intros [[|c s]|]; eexists; (split; [reflexivity|]).
    - left. apply Hfix. simpl. auto.
    - right. split; [discriminate | reflexivity].
    - left. apply Hfix. simpl. auto. }
  unfold try_except, deepseek_body, bind, requests_post, lift_result, ret, raise.
  destruct (net rq) as [e|response]; [exact (Hhandled e)|].
  destruct (status_error response) as [e|]; [exact (Hhandled e)|].
  destruct (json_body response) as [e|response_json]; [exact (Hhandled e)|].
  destruct (Json.has (py "choices") response_json) as [e|[|]]; [exact (Hhandled e)| |].
  - destruct (Json.get (py "choices") (JArr [JObj []]) response_json) as [e|choices];
      [exact (Hhandled e)|].
    destruct (Json.first choices) as [e|choice]; [exact (Hhandled e)|].
    destruct (Json.get (py "text") (JStr []) choice) as [e|text]; [exact (Hhandled e)|].
    destruct (Json.stripped text) as [e|s] eqn:Hs; [exact (Hhandled e)|].
    destruct (Hdone (Some s)) as (t & Ht & Hshape).
    unfold ret in Ht. rewrite Ht. eexists. split; [reflexivity|].
    destruct Hshape as [H|[Hne Heq]]; [left; exact H|right].
    split; [exact Hne|]. injection Heq as <-.
    destruct text; try discriminate. injection Hs as <-. eexists. reflexivity.
  - destruct (Json.has (py "response") response_json) as [e|[|]];
      [exact (Hhandled e)| |].
    + destruct (Json.item (py "response") response_json) as [e|text];
        [exact (Hhandled e)|].
      destruct (Json.stripped text) as [e|s] eqn:Hs; [exact (Hhandled e)|].
      destruct (Hdone (Some s)) as (t & Ht & Hshape).
      unfold ret in Ht. rewrite Ht. eexists. split; [reflexivity|].
      destruct Hshape as [H|[Hne Heq]]; [left; exact H|right].
      split; [exact Hne|]. injection Heq as <-.
      destruct text; try discriminate. injection Hs as <-. eexists. reflexivity.
    + destruct (Hdone None) as (t & Ht & Hshape).
      unfold ret in Ht. rewrite Ht. eexists. split; [reflexivity|].
      destruct Hshape as [H|[_ Heq]]; [left; exact H | discriminate].
Qed.

(** X26: while the URL, the API key or the token is missing or empty,
    [optimize_code] fails with status 500 and one of the two fixed
    texts, and no request is sent. *)
Theorem optimize_code_needs_settings
    (cfg : api_config) (net : api_host) (snippet : CodeSnippet)
    (log : list http_request) :
  ~ configured cfg ->
  exists detail,
    optimize_code cfg net snippet log = (inl (ApiHTTPException 500 detail), log)
    /\ (detail = MSG_NO_URL \/ detail = MSG_NO_CREDENTIALS).
Proof.
  intros Hn. unfold optimize_code, bind, lift_exn, optimize_code_with_deepseek.
  destruct (unset (OLLAMA_API_URL cfg)) eqn:Hu.
  - exists MSG_NO_URL. split; [reflexivity | now left].
  - destruct (unset (OLLAMA_API_KEY cfg)) eqn:Hk; cbn [orb].
    + exists MSG_NO_CREDENTIALS. split; [reflexivity | now right].
    + destruct (unset (OLLAMA_JWT_TOKEN cfg)) eqn:Ht.
      * exists MSG_NO_CREDENTIALS. split; [reflexivity | now right].
      * exfalso. apply Hn. repeat split; assumption.
Qed.

Lemma optimize_code_needs_settings_witness :
  ~ configured no_url_config
  /\ exists detail,
       optimize_code no_url_config (net_answers (JObj [])) sample_snippet []
       = (inl (ApiHTTPException 500 detail), [])
       /\ (detail = MSG_NO_URL \/ detail = MSG_NO_CREDENTIALS).
Proof.
  assert (H : ~ configured no_url_config) by (intros (Hu & _); discriminate Hu).
  split; [exact H|].
  exact (optimize_code_needs_settings no_url_config _ sample_snippet [] H).
Defined.

(** X27: with the settings in place every call sends exactly one
    request, to the configured URL with the token and the key in its
    headers, and when [requests.post] raises a [RequestException] of
    any kind the endpoint fails with status 500 and a text with the
    word ["Error"] in it. *)
Theorem optimize_code_request_failure_is_500
    (cfg : api_config) (net : api_host) (snippet : CodeSnippet)
    (log : list http_request) (clause : except_clause) (text : pystr) :
  configured cfg ->
  net (deepseek_request cfg (snippet_code snippet) (snippet_language snippet))
  = inl (Caught clause text) ->
  exists detail,
    optimize_code cfg net snippet log
    = (inl (ApiHTTPException 500 detail),
       log ++ [deepseek_request cfg (snippet_code snippet) (snippet_language snippet)])
    /\ occurs_in (py "Error") detail.
Proof.
  intros Hcfg Hnet.
  unfold optimize_code, bind, lift_exn.
  rewrite (deepseek_configured cfg net _ _ log Hcfg).
  unfold try_except, deepseek_body, bind, requests_post. rewrite Hnet.
  assert (Hhttp : contains (py "Error") (py "HTTP Error: " ++ text) = true)
    by exact (contains_after_prefix (py "Error") (py "HTTP ") (py ": " ++ text)).
  assert (Hcall : contains (py "Error") (py "Error calling DeepSeek API: " ++ text) = true)
    by exact (contains_after_prefix (py "Error") [] (py " calling DeepSeek API: " ++ text)).
  assert (Hconn : contains (py "Error") MSG_CONNECT = true) by (vm_compute; reflexivity).
  assert (Htime : contains (py "Error") MSG_API_TIMEOUT = true) by (vm_compute; reflexivity).
  destruct clause; cbn [deepseek_handlers ret];
    rewrite ?Hhttp, ?Hcall, ?Hconn, ?Htime;
    eexists; (split; [reflexivity|]); apply contains_spec; assumption.
Qed.

Lemma optimize_code_request_failure_is_500_witness :
  configured sample_config
  /\ exists detail,
       optimize_code sample_config net_refuses sample_snippet []
       = (inl (ApiHTTPException 500 detail),
          [] ++ [deepseek_request sample_config (snippet_code sample_snippet)
                   (snippet_language sample_snippet)])
       /\ occurs_in (py "Error") detail.
Proof.
  assert (H : configured sample_config) by (repeat split).
  split; [exact H|].
  exact (optimize_code_request_failure_is_500 sample_config net_refuses
           sample_snippet [] ConnectionError (py "Connection refused") H eq_refl).
Defined.

(** X28: [optimize_code] returns a body only after exactly one request,
    and the optimised code in it is a stripped text that is not empty
    and does not contain the word ["Error"]; the body carries the
    request's user name, code and language unchanged. An answer whose
    text contains ["Error"] is turned into a failure. *)
Theorem optimize_code_success_shape
    (cfg : api_config) (net : api_host) (snippet : CodeSnippet)
    (log log' : list http_request) (body : optimize_response) :
  optimize_code cfg net snippet log = (inr body, log') ->
  log' = log ++ [deepseek_request cfg (snippet_code snippet) (snippet_language snippet)]
  /\ or_optimized_code body <> []
  /\ (exists raw, or_optimized_code body = strip raw)
  /\ ~ occurs_in (py "Error") (or_optimized_code body)
  /\ or_username body = snippet_username snippet
  /\ or_original_code body = snippet_code snippet
  /\ or_language body = snippet_language snippet.
Proof.
  intros H.
  assert (Hcfg : configured cfg).
  { unfold optimize_code, bind, lift_exn, optimize_code_with_deepseek in H.
    destruct (unset (OLLAMA_API_URL cfg)) eqn:Hu; [discriminate H|].
    destruct (unset (OLLAMA_API_KEY cfg)) eqn:Hk; [discriminate H|].
    destruct (unset (OLLAMA_JWT_TOKEN cfg)) eqn:Ht; [discriminate H|].
    repeat split; assumption. }
  destruct (deepseek_result_shape cfg net (snippet_code snippet)
              (snippet_language snippet) log Hcfg) as (r & Hr & Hshape).
  unfold optimize_code, bind, lift_exn in H. rewrite Hr in H.
  destruct r as [e|text]; [discriminate H|].
  destruct (contains (py "Error") text) eqn:Hc; [discriminate H|].
  unfold ret in H. injection H as <- <-.
  cbn [or_optimized_code or_username or_original_code or_language].
  destruct Hshape as [Hbad|[Hne Hraw]]; [congruence|].
  repeat split; try assumption.
  intros Hocc. apply contains_spec in Hocc. congruence.
Qed.

Lemma optimize_code_success_shape_witness :
  let net := net_answers (JObj [(py "response", JStr (py " print(4) "))]) in
  let body := {| or_username := py " ada ";
                 or_original_code := py "print(2+2)" ++ LF;
                 or_optimized_code := py "print(4)";
                 or_language := py "python" |} in
  let rq := deepseek_request sample_config (snippet_code sample_snippet)
              (snippet_language sample_snippet) in
  optimize_code sample_config net sample_snippet [] = (inr body, [rq])
  /\ or_optimized_code body <> []
  /\ ~ occurs_in (py "Error") (or_optimized_code body).
Proof.
  intros net body rq.
  assert (H : optimize_code sample_config net sample_snippet [] = (inr body, [rq]))
    by (vm_compute; reflexivity).
  split; [exact H|].
  destruct (optimize_code_success_shape _ _ _ _ _ _ H) as (_ & Hne & _ & Hno & _).
  split; [exact Hne | exact Hno].
Defined.

(** X29: an answer with an empty ["choices"] list is not reported as
    "no valid response": indexing it raises [IndexError], which no
    clause of [optimize_code_with_deepseek] catches, so the exception
    leaves the endpoint. *)
Theorem optimize_code_empty_choices_escapes
    (cfg : api_config) (net : api_host) (snippet : CodeSnippet)
    (log : list http_request) (members : list (pystr * json)) :
  configured cfg ->
  net (deepseek_request cfg (snippet_code snippet) (snippet_language snippet))
  = inr {| status_error := None; json_body := inr (JObj members) |} ->
  Json.lookup (py "choices") members = Some (JArr []) ->
  fst (optimize_code_with_deepseek cfg net (snippet_code snippet)
         (snippet_language snippet) log) = inl (Uncaught IndexError)
  /\ fst (optimize_code cfg net snippet log) = inl (ApiUnhandled (Uncaught IndexError)).
Proof.
  intros Hcfg Hnet Hch.
  unfold optimize_code, bind, lift_exn.
  rewrite (deepseek_configured cfg net _ _ log Hcfg).
  unfold try_except, deepseek_body, bind, requests_post, lift_result.
  rewrite Hnet. cbn [status_error json_body Json.has Json.get].
  rewrite Hch. rewrite bool_decide_eq_true_2 by (eexists; reflexivity).
  cbn [Json.first]. split; reflexivity.
Qed.

Lemma optimize_code_empty_choices_escapes_witness :
  let net := net_answers (JObj [(py "choices", JArr []);
                                (py "response", JStr (py "print(4)"))]) in
  configured sample_config
  /\ fst (optimize_code sample_config net sample_snippet [])
     = inl (ApiUnhandled (Uncaught IndexError)).
Proof.
  intros net. assert (H : configured sample_config) by (repeat split).
  split; [exact H|].
  exact (proj2 (optimize_code_empty_choices_escapes sample_config net sample_snippet []
                  _ H eq_refl eq_refl)).
Defined.

(** X30: when the answer is an object with a ["choices"] list whose
    first item is an object with a string ["text"], the function
    returns that text stripped, if something is left of it, whatever
    else the answer holds: a ["response"] member is not looked at. *)
Theorem optimize_code_with_deepseek_reads_first_choice
    (cfg : api_config) (net : api_host) (code language : pystr)
    (log : list http_request) (members choice : list (pystr * json))
    (others : list json) (text : pystr) :
  configured cfg ->
  net (deepseek_request cfg code language)
  = inr {| status_error := None; json_body := inr (JObj members) |} ->
  Json.lookup (py "choices") members = Some (JArr (JObj choice :: others)) ->
  Json.lookup (py "text") choice = Some (JStr text) ->
  strip text <> [] ->
  optimize_code_with_deepseek cfg net code language log
  = (inr (strip text), log ++ [deepseek_request cfg code language]).
Proof.
  intros Hcfg Hnet Hch Htx Hne.
  rewrite (deepseek_configured cfg net _ _ log Hcfg).
  unfold try_except, deepseek_body, bind, requests_post, lift_result.
  rewrite Hnet. cbn [status_error json_body Json.has Json.get].
  rewrite Hch. rewrite bool_decide_eq_true_2 by (eexists; reflexivity).
  cbn [Json.first Json.get]. rewrite Htx. cbn [Json.stripped].
  destruct (strip text); [contradiction | reflexivity].
Qed.

Lemma optimize_code_with_deepseek_reads_first_choice_witness :
  let net := net_answers
               (JObj [(py "response", JStr (py "ignored"));
                      (py "choices", JArr [JObj [(py "text", JStr (py " print(4) "))]])]) in
  configured sample_config
  /\ strip (py " print(4) ") <> []
  /\ optimize_code_with_deepseek sample_config net (py "print(2+2)") (py "python") []
     = (inr (strip (py " print(4) ")),
        [] ++ [deepseek_request sample_config (py "print(2+2)") (py "python")]).
Proof.
  intros net. assert (H : configured sample_config) by (repeat split).
  assert (Hne : strip (py " print(4) ") <> []) by (vm_compute; discriminate).
  split; [exact H|]. split; [exact Hne|].
  exact (optimize_code_with_deepseek_reads_first_choice sample_config net
           (py "print(2+2)") (py "python") [] _ _ _ _ H eq_refl eq_refl eq_refl Hne).
Defined.
